(** * Passenger API: ownership-guarded CRUD handlers and token login

    A shallow embedding of [src/api/passengers.py] and
    [src/database/repository/passengers.py].  Python dictionaries (table
    rows produced by peewee's [.dicts()], decoded token claims, JSON
    request bodies) are finite maps from column names to values; the
    repository methods and the request handlers thread the database
    through a small state-and-exception monad that also records which
    repository methods were called.  Logging and the opening and closing
    of the database connection are left out: they do not influence a
    response or a table.  The login endpoint, the token codec and the
    bearer dependency are not among the sources; where a property needs
    them they are modelled from the written specification, in [Auth]. *)

From Stdlib Require Import ZArith String List Lia.
From stdpp Require Import base option list gmap strings.

Local Open Scope Z_scope.
Local Open Scope string_scope.

(** ** Values and dictionaries *)

(** The scalar values that occur in rows, claims and request bodies. *)
Inductive Value : Type :=
| VNull
| VInt (n : Z)
| VStr (s : string).

#[export] Instance Value_eq_dec : EqDecision Value.
Proof. solve_decision. Defined.

(** A Python [dict] with string keys. *)
Abbreviation Dict := (gmap string Value).

(** ** Tokens *)

(** Modelled from the spec: the token wire format produced by [JWTManager]
    ([src/utils/token.py] is not part of the sources).  The spec describes a
    token as an opaque signed string with an embedded expiry; a token
    string is therefore either not a well-formed signed token, or it
    carries the claims, the expiry instant and a signature, the signature
    being identified with the key that produced it. *)
Inductive Token : Type :=
| Garbled (raw : string)
| Signed (key : string) (exp : Z) (claims : Dict).

#[export] Instance Token_eq_dec : EqDecision Token.
Proof. solve_decision. Defined.

(** ** The database *)

(** The passengers table is the list of its rows, each row a dictionary of
    its columns; a reservation row is kept with the id of the passenger it
    belongs to (the foreign key behind [passenger.reservations]). *)
Record Store : Type := mkStore {
  passengers : list Dict;
  reservations : list (Z * Dict)
}.

(** Repository methods that a handler may invoke. *)
Inductive RepoCall : Type :=
| CallGetPassengers
| CallGetByEmail (email : Value)
| CallCreate (data : Dict)
| CallUpdate (id : Z) (data : Dict)
| CallDelete (id : Z)
| CallGetReservations (id : Z).

#[export] Instance RepoCall_eq_dec : EqDecision RepoCall.
Proof. solve_decision. Defined.

(** Python exceptions that the modelled code can raise. *)
Inductive Exn : Type :=
| KeyError (key : string)
| TypeError
| DoesNotExist
| IntegrityError
| DataError
| ValueError.

(** What a request can observe and change: the database, the wall clock
    (already rendered as [datetime.now().isoformat(timespec="minutes")])
    and the log of repository calls made so far, oldest first. *)
Record World : Type := mkWorld {
  db : Store;
  clock : string;
  calls : list RepoCall
}.

(** ** The effect monad *)

Definition Eff (A : Type) : Type := World → (Exn + A) * World.

Definition eff_ret {A} (a : A) : Eff A := λ w, (inr a, w).

Definition eff_bind {A B} (f : A → Eff B) (m : Eff A) : Eff B :=
  λ w, match m w with
       | (inl e, w') => (inl e, w')
       | (inr a, w') => f a w'
       end.

#[export] Instance Eff_ret : MRet Eff := @eff_ret.
#[export] Instance Eff_bind : MBind Eff := @eff_bind.

Definition raise {A} (e : Exn) : Eff A := λ w, (inl e, w).

(** The outcome of a [try] block, handed to its [except] clauses: the
    effects made before the exception was raised stay. *)
Definition attempt {A} (m : Eff A) : Eff (Exn + A) :=
  λ w, match m w with
       | (r, w') => (inr r, w')
       end.

Definition get_db : Eff Store := λ w, (inr (db w), w).
Definition put_db (s : Store) : Eff unit :=
  λ w, (inr tt, mkWorld s (clock w) (calls w)).
Definition get_clock : Eff string := λ w, (inr (clock w), w).
Definition record_call (c : RepoCall) : Eff unit :=
  λ w, (inr tt, mkWorld (db w) (clock w) (calls w ++ [c])).

(** [d[k]] on a dictionary: [KeyError] when the key is absent. *)
Definition getitem (d : Dict) (k : string) : Eff Value :=
  match d !! k with
  | Some v => mret v
  | None => raise (KeyError k)
  end.

(** [x[k]] where [x] is a dictionary or [None]. *)
Definition subscript (x : option Dict) (k : string) : Eff Value :=
  match x with
  | Some d => getitem d k
  | None => raise TypeError
  end.

(** Python truthiness of a value that is a dictionary or [None]. *)
Definition truthy (x : option Dict) : bool :=
  match x with
  | Some d => negb (bool_decide (d = ∅))
  | None => false
  end.

(** Running a handler on a database at a given clock reading, with an
    empty call log. *)
Definition run {A} (m : Eff A) (s : Store) (now : string) : (Exn + A) * World :=
  m (mkWorld s now []).

(** ** [PassengersRepository] *)

Module PassengersRepository.

(** [where(self.model.id == id)] and [where(self.model.email == e)]. *)
Definition has_id (id : Z) (row : Dict) : bool :=
  bool_decide (row !! "id" = Some (VInt id)).

Definition has_email (e : Value) (row : Dict) : bool :=
  bool_decide (row !! "email" = Some e).

(** [select().dicts()]: every row, every column. *)
Definition get_passengers : Eff (list Dict) :=
  _ ← record_call CallGetPassengers;
  s ← get_db;
  mret (passengers s).

(** [select().where(email == e).dicts().get()]: the first matching row,
    [DoesNotExist] turned into [None]. *)
Definition first_by_email (passenger_email : Value) (rows : list Dict) : option Dict :=
  head (filter (λ row, has_email passenger_email row = true) rows).

Definition get_by_email (passenger_email : Value) : Eff (option Dict) :=
  _ ← record_call (CallGetByEmail passenger_email);
  s ← get_db;
  mret (first_by_email passenger_email (passengers s)).

(** The columns written by [update]: the data, then [updated_at]. *)
Definition update_columns (data : Dict) (now : string) : Dict :=
  <["updated_at" := VStr now]> data.

Definition update_row (id : Z) (columns : Dict) (row : Dict) : Dict :=
  if has_id id row then columns ∪ row else row.

(** The rows a [where(id == i)] clause does not select. *)
Definition others (id : Z) (rows : list Dict) : list Dict :=
  filter (λ row, has_id id row = false) rows.

(** The table after [UPDATE ... WHERE id = i] and after
    [DELETE ... WHERE id = i]. *)
Definition update_statement (id : Z) (data : Dict) (now : string) (s : Store) : Store :=
  mkStore (update_row id (update_columns data now) <$> passengers s) (reservations s).

Definition delete_statement (id : Z) (s : Store) : Store :=
  mkStore (others id (passengers s)) (reservations s).

(** [get(id == i)] followed by the [reservations] back-reference. *)
Definition get_reservations (id : Z) : Eff (list Dict) :=
  _ ← record_call (CallGetReservations id);
  s ← get_db;
  match head (filter (λ row, has_id id row = true) (passengers s)) with
  | None => raise DoesNotExist
  | Some _ =>
      mret ((filter (λ r, bool_decide (r.1 = id) = true) (reservations s)).*2)
  end.

(** [select(self.model.id)]: the [id] column alone of a row. *)
Definition id_column (row : Dict) : Dict :=
  filter (λ kv : string * Value, kv.1 = "id") row.

(** [select(id).where(id == i).dicts().get()]: the [id] column of the
    first matching row, [DoesNotExist] turned into [None].  No handler
    calls this method, so the log of handler calls has no entry for it. *)
Definition get_passenger_by_id (passenger_id : Z) : Eff (option Dict) :=
  s ← get_db;
  mret (id_column <$> head (filter (λ row, has_id passenger_id row = true) (passengers s))).

Section Constraints.

(** The model classes ([src/database/models]) are not part of the
    sources.  What they declare enters as three parameters: the
    constraints a table state has to satisfy (unique columns, foreign
    keys); what the columns refuse to be written with ([ValueError] for
    a key that is not a column, [DataError] for a value that its column
    cannot hold, such as an integer out of range); and what
    [PassengersModel.create] inserts and returns, or the exception it
    raises ([IntegrityError] for a constraint, [DataError] and the like
    for the data). *)
Variable integrity : Store → bool.
Variable column_error : Dict → option Exn.
Variable model_create : Store → Dict → Exn + (Store * Value).

(** A statement whose result would violate a constraint raises
    [IntegrityError] and leaves the tables as they were. *)
Definition execute (s' : Store) : Eff unit :=
  if integrity s' then put_db s' else raise IntegrityError.

Definition create (data : Dict) : Eff Value :=
  _ ← record_call (CallCreate data);
  s ← get_db;
  match model_create s data with
  | inr (s', result) => _ ← put_db s'; mret result
  | inl e => raise e
  end.

(** The columns are checked before the constraints: a refused write
    raises and leaves the tables as they were. *)
Definition update (id : Z) (data : Dict) : Eff bool :=
  _ ← record_call (CallUpdate id data);
  now ← get_clock;
  s ← get_db;
  match column_error (update_columns data now) with
  | Some e => raise e
  | None =>
      _ ← execute (update_statement id data now s);
      mret true
  end.

Definition delete (id : Z) : Eff bool :=
  _ ← record_call (CallDelete id);
  s ← get_db;
  _ ← execute (delete_statement id s);
  mret true.

End Constraints.

End PassengersRepository.

(** ** Request schema *)

(** [PassengerRequestSchema] after validation. *)
Record PassengerRequestSchema : Type := mkPassengerRequest {
  name : string;
  age : Z;
  email : string;
  password : string
}.

(** [body.model_dump()]. *)
Definition model_dump (body : PassengerRequestSchema) : Dict :=
  <["name" := VStr (name body)]>
  (<["age" := VInt (age body)]>
  (<["email" := VStr (email body)]>
  (<["password" := VStr (password body)]> ∅))).

Section Schema.

(** [src/schemas/types.py] is not part of the sources: the three
    constrained string types, and pydantic's own [int] validation, are
    parameters.  Each returns the validated value or fails. *)
Variables AlphaStr EmailStr PasswordStr : Value → option string.
Variable int_field : Value → option Z.

(** A required field ([Field(...)]): present and accepted by its type. *)
Definition required {A} (request : Dict) (k : string) (ty : Value → option A) : option A :=
  request !! k ≫= ty.

Definition field_error {A} (request : Dict) (k : string) (ty : Value → option A) : list string :=
  match required request k ty with
  | Some _ => []
  | None => [k]
  end.

(** Constructing [PassengerRequestSchema] from the request's items: the
    validated body, or the fields ([error['loc'][0]]) that the
    [ValidationError] reports, in the order of their declaration.  Keys
    of the request that are not fields are ignored. *)
Definition validate (request : Dict) : list string + PassengerRequestSchema :=
  match required request "name" AlphaStr, required request "age" int_field,
        required request "email" EmailStr, required request "password" PasswordStr with
  | Some n, Some a, Some e, Some p => inr (mkPassengerRequest n a e p)
  | _, _, _, _ =>
      inl (field_error request "name" AlphaStr ++ field_error request "age" int_field ++
           field_error request "email" EmailStr ++ field_error request "password" PasswordStr)%list
  end.

End Schema.

(** ** Responses *)

(** The [data] of a [SuccessResponse]. *)
Inductive Data : Type :=
| DataRow (row : Dict)
| DataRows (rows : list Dict)
| DataCreated (id : Value) (passenger : Dict) (token : Token)
| DataUpdated (token : Token) (passenger : Dict).

(** Response envelopes of [src/schemas/responses.py]; the defaulted
    [success], [timestamp] and [detail] fields carry no information. *)
Inductive Content : Type :=
| SuccessResponse (data : Data)
| BadResponse (message : string)
| ValidationErrorResponse (details : list string).

Inductive Response : Type :=
| JSONResponse (content : Content) (status_code : Z)
| EmptyResponse (status_code : Z).

Definition status_of (r : Response) : Z :=
  match r with
  | JSONResponse _ c => c
  | EmptyResponse c => c
  end.

(** The token, and the passenger data next to it, of a response that
    carries one. *)
Definition issued (r : Response) : option (Token * Dict) :=
  match r with
  | JSONResponse (SuccessResponse (DataCreated _ passenger token)) _ => Some (token, passenger)
  | JSONResponse (SuccessResponse (DataUpdated token passenger)) _ => Some (token, passenger)
  | _ => None
  end.

Definition HTTP_200_OK : Z := 200.
Definition HTTP_201_CREATED : Z := 201.
Definition HTTP_204_NO_CONTENT : Z := 204.
Definition HTTP_400_BAD_REQUEST : Z := 400.
Definition HTTP_401_UNAUTHORIZED : Z := 401.
Definition HTTP_403_FORBIDDEN : Z := 403.
Definition HTTP_404_NOT_FOUND : Z := 404.
Definition HTTP_500_INTERNAL_SERVER_ERROR : Z := 500.

Definition not_found : Response :=
  JSONResponse (BadResponse "passenger not found") HTTP_404_NOT_FOUND.

Definition forbidden : Response :=
  JSONResponse (BadResponse "passenger logged in does not have access to this resource")
               HTTP_403_FORBIDDEN.

(** The caller owns the addressed row: the claims' email resolves to a
    row whose id is the path id. *)
Definition owner_resolved (s : Store) (decoded_token : Dict) (id : Z) : Prop :=
  ∃ e p, decoded_token !! "email" = Some e
         ∧ PassengersRepository.first_by_email e (passengers s) = Some p
         ∧ p !! "id" = Some (VInt id).

(** ** The handlers of [src/api/passengers.py] *)

Section Handlers.

Variable integrity : Store → bool.
Variable column_error : Dict → option Exn.
Variable model_create : Store → Dict → Exn + (Store * Value).
Variables AlphaStr EmailStr PasswordStr : Value → option string.
Variable int_field : Value → option Z.

(** [JWTManager().encode] at the instant of the request
    ([src/utils/token.py] is not part of the sources): the token, or
    [None] when it raises. *)
Variable jwt_encode : Dict → option Token.

Let PassengerRequest := validate AlphaStr EmailStr PasswordStr int_field.

Definition get_all_passengers : Eff Response :=
  passengers ← PassengersRepository.get_passengers;
  mret (JSONResponse (SuccessResponse (DataRows passengers)) HTTP_200_OK).

(** In the last branch [passenger] is truthy, hence a row: [default]
    only unwraps it. *)
Definition get_passenger_details (decoded_token : Dict) (id : Z) : Eff Response :=
  token_email ← getitem decoded_token "email";
  passenger ← PassengersRepository.get_by_email token_email;
  if negb (truthy passenger) then mret not_found
  else
    passenger_id ← subscript passenger "id";
    if bool_decide (passenger_id ≠ VInt id) then mret forbidden
    else mret (JSONResponse (SuccessResponse (DataRow (default ∅ passenger))) HTTP_200_OK).

Definition create_passenger (request : Dict) : Eff Response :=
  match PassengerRequest request with
  | inl errors_details =>
      mret (JSONResponse (ValidationErrorResponse errors_details) HTTP_400_BAD_REQUEST)
  | inr body =>
      let body_to_dict := model_dump body in
      created ← attempt (PassengersRepository.create model_create body_to_dict);
      match created with
      | inl IntegrityError =>
          mret (JSONResponse (BadResponse "passenger already exists") HTTP_400_BAD_REQUEST)
      | inl e => raise e
      | inr new_passenger_id =>
          match jwt_encode body_to_dict with
          | None =>
              mret (JSONResponse (BadResponse "Possible error generating token")
                                 HTTP_500_INTERNAL_SERVER_ERROR)
          | Some token =>
              mret (JSONResponse
                      (SuccessResponse (DataCreated new_passenger_id body_to_dict token))
                      HTTP_201_CREATED)
          end
      end
  end.

Definition update_passenger (decoded_token : Dict) (id : Z) (request : Dict) : Eff Response :=
  match PassengerRequest request with
  | inl errors_details =>
      mret (JSONResponse (ValidationErrorResponse errors_details) HTTP_400_BAD_REQUEST)
  | inr body =>
      token_email ← getitem decoded_token "email";
      passenger ← PassengersRepository.get_by_email token_email;
      let body_to_dict := model_dump body in
      if negb (truthy passenger) then mret not_found
      else
        passenger_id ← subscript passenger "id";
        if bool_decide (passenger_id ≠ VInt id) then mret forbidden
        else
          updated_passenger ←
            PassengersRepository.update integrity column_error id body_to_dict;
          match jwt_encode body_to_dict with
          | None =>
              mret (JSONResponse (BadResponse "Possible error generating token")
                                 HTTP_500_INTERNAL_SERVER_ERROR)
          | Some token =>
              mret (JSONResponse (SuccessResponse (DataUpdated token body_to_dict))
                                 HTTP_201_CREATED)
          end
  end.

Definition delete_passenger (decoded_token : Dict) (id : Z) : Eff Response :=
  token_email ← getitem decoded_token "email";
  passenger ← PassengersRepository.get_by_email token_email;
  if negb (truthy passenger) then mret not_found
  else
    passenger_id ← subscript passenger "id";
    if bool_decide (passenger_id ≠ VInt id) then mret forbidden
    else
      _ ← PassengersRepository.delete integrity id;
      mret (EmptyResponse HTTP_204_NO_CONTENT).

Definition get_passenger_reservations (id : Z) (decoded_token : Dict) : Eff Response :=
  token_email ← getitem decoded_token "email";
  passenger ← PassengersRepository.get_by_email token_email;
  if negb (truthy passenger) then mret not_found
  else
    passenger_id ← subscript passenger "id";
    if bool_decide (passenger_id ≠ VInt id) then mret forbidden
    else
      reservations ← PassengersRepository.get_reservations id;
      mret (JSONResponse (SuccessResponse (DataRows reservations)) HTTP_200_OK).

(** *** Routing *)

Inductive Endpoint : Type :=
| GET_passengers
| GET_passenger (id : Z)
| POST_passengers (request : Dict)
| PUT_passenger (id : Z) (request : Dict)
| DELETE_passenger (id : Z)
| GET_passenger_reservations (id : Z).

(** The [Authorization] header: absent, or a scheme and credentials. *)
Definition Authorization : Type := option (string * Token).

(** [Depends(JWTBearerDependencie())] ([src/utils/dependencies.py] is
    not part of the sources): the decoded claims handed to the handler,
    or the response that ends the request before the handler runs. *)
Variable JWTBearerDependencie : Authorization → Response + Dict.

Definition depends (authorization : Authorization) (handler : Dict → Eff Response)
  : Eff Response :=
  match JWTBearerDependencie authorization with
  | inl rejection => mret rejection
  | inr decoded_token => handler decoded_token
  end.

(** The routes as their decorators and signatures declare them: only
    the handlers with a [decoded_token] parameter go through the
    dependency. *)
Definition route (authorization : Authorization) (endpoint : Endpoint) : Eff Response :=
  match endpoint with
  | GET_passengers => get_all_passengers
  | GET_passenger id =>
      depends authorization (λ decoded_token, get_passenger_details decoded_token id)
  | POST_passengers request => create_passenger request
  | PUT_passenger id request =>
      depends authorization (λ decoded_token, update_passenger decoded_token id request)
  | DELETE_passenger id =>
      depends authorization (λ decoded_token, delete_passenger decoded_token id)
  | GET_passenger_reservations id =>
      depends authorization (λ decoded_token, get_passenger_reservations id decoded_token)
  end.

(** *** The operations behind the ownership check *)

Inductive Protected : Type :=
| Details
| Update (request : Dict)
| Delete
| Reservations.

Definition protected (op : Protected) (decoded_token : Dict) (id : Z) : Eff Response :=
  match op with
  | Details => get_passenger_details decoded_token id
  | Update request => update_passenger decoded_token id request
  | Delete => delete_passenger decoded_token id
  | Reservations => get_passenger_reservations id decoded_token
  end.

(** A protected operation whose request body, if it has one, has passed
    validation; [PUT] alone has a body, and looks at it first. *)
Inductive Operation : Type :=
| DoDetails
| DoUpdate (body : PassengerRequestSchema)
| DoDelete
| DoReservations.

Definition accepted (op : Protected) : list string + Operation :=
  match op with
  | Details => inr DoDetails
  | Update request =>
      match PassengerRequest request with
      | inl errors_details => inl errors_details
      | inr body => inr (DoUpdate body)
      end
  | Delete => inr DoDelete
  | Reservations => inr DoReservations
  end.

Definition body_accepted (op : Protected) : bool :=
  match accepted op with
  | inr _ => true
  | inl _ => false
  end.

(** What remains of each handler once the ownership check has passed. *)
Definition proceed (o : Operation) (id : Z) (passenger : option Dict) : Eff Response :=
  match o with
  | DoDetails =>
      mret (JSONResponse (SuccessResponse (DataRow (default ∅ passenger))) HTTP_200_OK)
  | DoUpdate body =>
      _ ← PassengersRepository.update integrity column_error id (model_dump body);
      match jwt_encode (model_dump body) with
      | None =>
          mret (JSONResponse (BadResponse "Possible error generating token")
                             HTTP_500_INTERNAL_SERVER_ERROR)
      | Some token =>
          mret (JSONResponse (SuccessResponse (DataUpdated token (model_dump body)))
                             HTTP_201_CREATED)
      end
  | DoDelete =>
      _ ← PassengersRepository.delete integrity id;
      mret (EmptyResponse HTTP_204_NO_CONTENT)
  | DoReservations =>
      reservations ← PassengersRepository.get_reservations id;
      mret (JSONResponse (SuccessResponse (DataRows reservations)) HTTP_200_OK)
  end.

(** The two operations that write to the passengers table. *)
Definition mutating (op : Protected) : bool :=
  match op with
  | Update _ | Delete => true
  | Details | Reservations => false
  end.

(** The two operations that answer with a freshly issued token. *)
Inductive Issuing : Type :=
| Post (request : Dict)
| Put (decoded_token : Dict) (id : Z) (request : Dict).

Definition issuing (op : Issuing) : Eff Response :=
  match op with
  | Post request => create_passenger request
  | Put decoded_token id request => update_passenger decoded_token id request
  end.

Definition request_of (op : Issuing) : Dict :=
  match op with
  | Post request => request
  | Put _ _ request => request
  end.

(** The write of a token-issuing operation goes through: the insert
    returns; or the caller owns the row, and neither the columns nor the
    constraints refuse the update. *)
Definition write_succeeds (op : Issuing) (s : Store) (now : string)
    (body : PassengerRequestSchema) : Prop :=
  match op with
  | Post _ => ∃ s' new_id, model_create s (model_dump body) = inr (s', new_id)
  | Put decoded_token id _ =>
      owner_resolved s decoded_token id
      ∧ column_error (PassengersRepository.update_columns (model_dump body) now) = None
      ∧ integrity (PassengersRepository.update_statement id (model_dump body) now s) = true
  end.

(** A request as the router receives it: the header, the endpoint and
    the clock reading; and the database after a sequence of requests has
    been served one after the other. *)
Definition Request : Type := Authorization * Endpoint * string.

Definition serve (requests : list Request) (s : Store) : Store :=
  foldl (λ s' '(authorization, endpoint, now), db (run (route authorization endpoint) s' now).2)
        s requests.

End Handlers.

(** Modelled from the spec: what the password type of
    [src/schemas/types.py], which is not part of the sources, is said to
    be, a password-complexity validation rule.  A validation rule
    accepts a string or refuses the value, and hands an accepted string
    on as it is. *)
Definition validation_rule (ty : Value → option string) : Prop :=
  ∀ v accepted, ty v = Some accepted → v = VStr accepted.

(** No row of the table has the id. *)
Definition absent (id : Z) (s : Store) : Prop :=
  Forall (λ row, row !! "id" ≠ Some (VInt id)) (passengers s).

(** ** The ownership rule on its own *)

(** The check that the four protected handlers each spell out: resolve
    the claims' email, then compare the resolved row's id with the path
    id.  It answers with the rejecting response or with the caller's own
    row. *)
Definition ownership_guard (decoded_token : Dict) (id : Z) : Eff (Response + Dict) :=
  token_email ← getitem decoded_token "email";
  passenger ← PassengersRepository.get_by_email token_email;
  if negb (truthy passenger) then mret (inl not_found)
  else
    passenger_id ← subscript passenger "id";
    if bool_decide (passenger_id ≠ VInt id) then mret (inl forbidden)
    else mret (inr (default ∅ passenger)).

(** What the ownership rule computes, case by case. *)
Definition guard_outcome (decoded_token : Dict) (id : Z) (w : World)
  : (Exn + (Response + Dict)) * World :=
  match decoded_token !! "email" with
  | None => (inl (KeyError "email"), w)
  | Some e =>
      let w' := mkWorld (db w) (clock w) (calls w ++ [CallGetByEmail e]) in
      match PassengersRepository.first_by_email e (passengers (db w)) with
      | None => (inr (inl not_found), w')
      | Some p =>
          match p !! "id" with
          | None => (inl (KeyError "id"), w')
          | Some passenger_id =>
              if bool_decide (passenger_id = VInt id) then (inr (inr p), w')
              else (inr (inl forbidden), w')
          end
      end
  end.

(** The same check with the rest of a handler as its continuation: the
    shape shared by the four protected handlers. *)
Definition guarded (decoded_token : Dict) (id : Z) (rest : option Dict → Eff Response)
  : Eff Response :=
  token_email ← getitem decoded_token "email";
  passenger ← PassengersRepository.get_by_email token_email;
  if negb (truthy passenger) then mret not_found
  else
    passenger_id ← subscript passenger "id";
    if bool_decide (passenger_id ≠ VInt id) then mret forbidden
    else rest passenger.

(** The decision a response reveals. *)
Inductive Decision : Type :=
| Allow
| IdentityNotFound
| OwnershipViolation.

Definition decision_of (r : Exn + Response) : Decision :=
  match r with
  | inr (JSONResponse (BadResponse m) c) =>
      if bool_decide (c = HTTP_404_NOT_FOUND) then IdentityNotFound
      else if bool_decide (c = HTTP_403_FORBIDDEN) then OwnershipViolation
      else Allow
  | _ => Allow
  end.

(** The decision of the rule on its own. *)
Definition guard_decision (g : Exn + (Response + Dict)) : Exn + Decision :=
  match g with
  | inl e => inl e
  | inr (inl rejection) => inr (decision_of (inr rejection))
  | inr (inr _) => inr Allow
  end.

(** The email-to-passenger mapping: the id of the row an email resolves
    to, if any. *)
Definition resolved_id (s : Store) (e : Value) : option (option Value) :=
  (λ p : Dict, p !! "id") <$> PassengersRepository.first_by_email e (passengers s).

Definition is_mutation (c : RepoCall) : bool :=
  match c with
  | CallCreate _ | CallUpdate _ _ | CallDelete _ => true
  | _ => false
  end.

(** The calls of a log that address the row [id] directly. *)
Definition addresses (id : Z) (c : RepoCall) : bool :=
  match c with
  | CallUpdate i _ | CallDelete i | CallGetReservations i => bool_decide (i = id)
  | _ => false
  end.

(** ** Token codec, bearer authenticator and login *)

Module Auth.

(** Modelled from the spec: the configuration of the token codec (the
    signing key and the validity duration), which the spec asks to be
    passed in explicitly; [src/utils/config.py] is not part of the
    sources. *)
Record Config : Type := mkConfig {
  secret_key : string;
  expires_in : Z
}.

(** Modelled from the spec: the three failure kinds of decoding. *)
Inductive DecodeError : Type :=
| Malformed
| SignatureInvalid
| Expired.

(** Modelled from the spec: the user-visible failures. *)
Inductive Failure : Type :=
| AuthenticationRequired
| IdentityNotFound
| OwnershipViolation
| InvalidCredentials.

Definition http_status (f : Failure) : Z :=
  match f with
  | AuthenticationRequired => HTTP_403_FORBIDDEN
  | IdentityNotFound => HTTP_404_NOT_FOUND
  | OwnershipViolation => HTTP_403_FORBIDDEN
  | InvalidCredentials => HTTP_401_UNAUTHORIZED
  end.

Section Codec.

Variable config : Config.

(** Modelled from the spec: [JWTManager.encode] ([src/utils/token.py] is
    not part of the sources).  The claims are signed with the configured
    key and expire a fixed duration after the instant of issue. *)
Definition encode (now : Z) (claims : Dict) : Token :=
  Signed (secret_key config) (now + expires_in config) claims.

(** Modelled from the spec: which of its two checks on a well-formed
    token [JWTManager.decode] makes first.  The spec names the failure
    kinds but not their order, and its two testable properties (every
    token past its expiry is [Expired]; every token signed with a
    different key is [SignatureInvalid]) ask for opposite answers on a
    token that is both; the order is therefore left open. *)
Variable signature_first : bool.

(** Modelled from the spec: [JWTManager.decode].  A string that is not a
    well-formed signed token is [Malformed]; a well-formed token is
    [SignatureInvalid] when its signature does not match the configured
    key and [Expired] when the current time is past its embedded
    expiry, whichever of the two checks comes first deciding for a token
    that fails both. *)
Definition decode (now : Z) (token : Token) : DecodeError + Dict :=
  match token with
  | Garbled _ => inl Malformed
  | Signed key exp claims =>
      let expired := bool_decide (exp < now) in
      let foreign := bool_decide (key ≠ secret_key config) in
      if signature_first then
        if foreign then inl SignatureInvalid
        else if expired then inl Expired
        else inr claims
      else
        if expired then inl Expired
        else if foreign then inl SignatureInvalid
        else inr claims
  end.

(** Modelled from the spec: the bearer authenticator
    ([src/utils/dependencies.py] is not part of the sources).  A missing
    header, a scheme other than [Bearer] and every decode failure give
    the same outcome. *)
Definition bearer_authenticator (now : Z) (authorization : Authorization) : Failure + Dict :=
  match authorization with
  | None => inl AuthenticationRequired
  | Some (scheme, token) =>
      if bool_decide (scheme = "Bearer") then
        match decode now token with
        | inr claims => inr claims
        | inl _ => inl AuthenticationRequired
        end
      else inl AuthenticationRequired
  end.

(** The password check of the credential store, which the spec leaves
    opaque. *)
Variable verify_password : Dict → string → bool.

(** Modelled from the spec: the login verifier ([src/api/auth.py] is not
    part of the sources).  It resolves the email, checks the password
    against the resolved identity and encodes that identity's full claim
    set. *)
Definition login (now : Z) (login_email login_password : string) : Eff (Failure + Token) :=
  identity ← PassengersRepository.get_by_email (VStr login_email);
  match identity with
  | None => mret (inl IdentityNotFound)
  | Some passenger =>
      if verify_password passenger login_password
      then mret (inr (encode now passenger))
      else mret (inl InvalidCredentials)
  end.

(** Modelled from the spec: the HTTP answer of [POST /auth/login], as far
    as the spec fixes it: the status, the message of the one failure
    whose message is given, and the token in the body. *)
Definition login_status (outcome : Failure + Token) : Z :=
  match outcome with
  | inr _ => HTTP_200_OK
  | inl f => http_status f
  end.

Definition login_message (outcome : Failure + Token) : option string :=
  match outcome with
  | inl InvalidCredentials => Some "Invalid password"
  | _ => None
  end.

Definition login_token (outcome : Failure + Token) : option Token :=
  match outcome with
  | inr token => Some token
  | inl _ => None
  end.

End Codec.

End Auth.

(** ** Vocabulary for the further properties *)

(** The fields of [PassengerRequestSchema], in the order of their
    declaration. *)
Definition schema_fields : list string := ["name"; "age"; "email"; "password"].

(** The status codes each protected handler can answer with: those its
    docstring lists (for [PUT] the 500 of a failed token generation
    included), and for the reservations handler, which has no
    docstring, those its body returns. *)
Definition statuses (op : Protected) : list Z :=
  match op with
  | Details => [HTTP_200_OK; HTTP_403_FORBIDDEN; HTTP_404_NOT_FOUND]
  | Update _ => [HTTP_400_BAD_REQUEST; HTTP_404_NOT_FOUND; HTTP_403_FORBIDDEN;
                 HTTP_500_INTERNAL_SERVER_ERROR; HTTP_201_CREATED]
  | Delete => [HTTP_404_NOT_FOUND; HTTP_403_FORBIDDEN; HTTP_204_NO_CONTENT]
  | Reservations => [HTTP_404_NOT_FOUND; HTTP_403_FORBIDDEN; HTTP_200_OK]
  end.

(** The id in the path of an endpoint, and whether the endpoint is the
    one that inserts. *)
Definition path_id (endpoint : Endpoint) : option Z :=
  match endpoint with
  | GET_passenger id | PUT_passenger id _ | DELETE_passenger id
  | GET_passenger_reservations id => Some id
  | GET_passengers | POST_passengers _ => None
  end.

Definition inserts (endpoint : Endpoint) : bool :=
  match endpoint with
  | POST_passengers _ => true
  | _ => false
  end.

(** The [id] column of a table, row by row. *)
Definition id_of (row : Dict) : option Value := row !! "id".

Definition ids (rows : list Dict) : list (option Value) := id_of <$> rows.

(** ** Sample data *)

Module Sample.

Definition str_type (v : Value) : option string :=
  match v with
  | VStr s => Some s
  | _ => None
  end.

Definition int_type (v : Value) : option Z :=
  match v with
  | VInt n => Some n
  | _ => None
  end.

Definition no_constraints (_ : Store) : bool := true.

Definition any_columns (_ : Dict) : option Exn := None.

(** An [age] column of 32 bits: it cannot hold an integer beyond
    2147483647. *)
Definition int_columns (data : Dict) : option Exn :=
  match data !! "age" with
  | Some (VInt n) => if bool_decide (2147483647 < n) then Some DataError else None
  | _ => None
  end.

Definition append_row (s : Store) (data : Dict) : Exn + (Store * Value) :=
  let new_id := VInt (Z.of_nat (length (passengers s)) + 1) in
  inr (mkStore (passengers s ++ [<["id" := new_id]> data]) (reservations s), new_id).

(** An insert that, as a table with a default column does, stores more
    than it was given. *)
Definition insert_row (s : Store) (data : Dict) : Exn + (Store * Value) :=
  let new_id := VInt (Z.of_nat (length (passengers s)) + 1) in
  inr (mkStore (passengers s ++ [<["id" := new_id]> (<["updated_at" := VNull]> data)])
               (reservations s),
       new_id).

(** The same insert into a table with that [age] column. *)
Definition checked_insert (s : Store) (data : Dict) : Exn + (Store * Value) :=
  match int_columns data with
  | Some e => inl e
  | None => insert_row s data
  end.

Definition config : Auth.Config := Auth.mkConfig "k1" 3600.

Definition jwt (claims : Dict) : option Token := Some (Auth.encode config 1000 claims).

Definition same_password (passenger : Dict) (plaintext : string) : bool :=
  bool_decide (passenger !! "password" = Some (VStr plaintext)).

Definition ana : Dict :=
  <["id" := VInt 1]> (model_dump (mkPassengerRequest "Ana" 31 "ana@example.com" "Asdfghjk1")).

Definition ben : Dict :=
  <["id" := VInt 2]> (model_dump (mkPassengerRequest "Ben" 25 "ben@example.com" "Abchyxcfat90Ax")).

Definition store : Store :=
  mkStore [ana; ben]
          [(1, {["destination" := VStr "Lima"]}); (2, {["destination" := VStr "Quito"]})].

Definition ana_claims : Dict := {["email" := VStr "ana@example.com"]}.

Definition eve_claims : Dict := {["email" := VStr "eve@example.com"]}.

Definition new_ana : Dict :=
  model_dump (mkPassengerRequest "Ana" 32 "ana@example.org" "New3241x").

Definition noon : string := "2024-05-01T12:00".

(** A token codec that is misconfigured and always raises. *)
Definition broken_jwt (_ : Dict) : option Token := None.

(** A bearer dependency that accepts the claims of any signed token. *)
Definition bearer (authorization : Authorization) : Response + Dict :=
  match authorization with
  | Some (_, Signed _ _ claims) => inr claims
  | _ => inl (JSONResponse (BadResponse "Not authenticated") HTTP_403_FORBIDDEN)
  end.

Definition ana_header : Authorization := Some ("Bearer", Signed "k1" 4600 ana_claims).

Definition ben_header : Authorization :=
  Some ("Bearer", Signed "k1" 4600 {["email" := VStr "ben@example.com"]}).

Definition later : string := "2024-05-01T12:05".

End Sample.


(** * Properties *)

(** ** Evaluating the monad *)

Ltac eff_unfold :=
  unfold run, mbind, mret, Eff_bind, Eff_ret, eff_bind, eff_ret, raise, attempt,
    get_db, put_db, get_clock, record_call in *.

Lemma eff_bind_unfold {A B} (m : Eff A) (f : A → Eff B) (w : World) :
  (m ≫= f) w = match m w with
               | (inl e, w') => (inl e, w')
               | (inr a, w') => f a w'
               end.
Proof. reflexivity. Qed.

(** ** The repository queries *)

Lemma first_by_email_Some (e : Value) (rows : list Dict) (p : Dict) :
  PassengersRepository.first_by_email e rows = Some p → p !! "email" = Some e ∧ p ∈ rows.
Proof.
  unfold PassengersRepository.first_by_email. intros Hhead.
  apply head_Some_elem_of in Hhead.
  apply list_elem_of_filter in Hhead as [Hmail Hin].
  unfold PassengersRepository.has_email in Hmail.
  apply bool_decide_eq_true in Hmail. done.
Qed.

Lemma first_by_email_truthy (e : Value) (rows : list Dict) (p : Dict) :
  PassengersRepository.first_by_email e rows = Some p → truthy (Some p) = true.
Proof.
  intros [Hmail _]%first_by_email_Some. simpl.
  rewrite bool_decide_eq_false_2; [done|].
  intros ->. by rewrite lookup_empty in Hmail.
Qed.

Lemma get_by_email_run (e : Value) (w : World) :
  PassengersRepository.get_by_email e w =
  (inr (PassengersRepository.first_by_email e (passengers (db w))),
   mkWorld (db w) (clock w) (calls w ++ [CallGetByEmail e])).
Proof. reflexivity. Qed.

(** The steps shared by the two lemmas below: follow the lookup of the
    email claim, the query, the truthiness test and the id comparison. *)
Ltac guard_steps decoded_token id w :=
  unfold guard_outcome, getitem;
  destruct (decoded_token !! "email") as [e|] eqn:Hemail; [|reflexivity];
  rewrite eff_bind_unfold; cbn [mret Eff_ret eff_ret];
  rewrite eff_bind_unfold, get_by_email_run;
  destruct (PassengersRepository.first_by_email e (passengers (db w))) as [p|] eqn:Hp;
    [|reflexivity];
  rewrite (first_by_email_truthy _ _ _ Hp); cbn [negb subscript];
  rewrite eff_bind_unfold; unfold getitem;
  destruct (p !! "id") as [pid|]; [|reflexivity];
  cbn [mret Eff_ret eff_ret default];
  destruct (decide (pid = VInt id)) as [->|Hne];
  [ rewrite bool_decide_eq_false_2 by (intros H; by apply H);
    by rewrite bool_decide_eq_true_2
  | rewrite bool_decide_eq_true_2 by done; by rewrite bool_decide_eq_false_2 ].

Lemma ownership_guard_outcome (decoded_token : Dict) (id : Z) (w : World) :
  ownership_guard decoded_token id w = guard_outcome decoded_token id w.
Proof. unfold ownership_guard. guard_steps decoded_token id w. Qed.

Lemma guarded_run (decoded_token : Dict) (id : Z) (rest : option Dict → Eff Response)
    (w : World) :
  guarded decoded_token id rest w =
  match guard_outcome decoded_token id w with
  | (inl e, w') => (inl e, w')
  | (inr (inl rejection), w') => (inr rejection, w')
  | (inr (inr p), w') => rest (Some p) w'
  end.
Proof. unfold guarded. guard_steps decoded_token id w. Qed.

Lemma guard_outcome_db (decoded_token : Dict) (id : Z) (w : World) :
  db (guard_outcome decoded_token id w).2 = db w.
Proof.
  unfold guard_outcome. repeat case_match; reflexivity.
Qed.

(** The check depends on the database only through the id of the row
    the claims' email resolves to: with the same id it raises the same
    exception, rejects with the same response, or passes, in both. *)
Lemma guard_outcome_stable (decoded_token : Dict) (id : Z) (w1 w2 : World) :
  (∀ e, decoded_token !! "email" = Some e → resolved_id (db w1) e = resolved_id (db w2) e) →
  match (guard_outcome decoded_token id w1).1, (guard_outcome decoded_token id w2).1 with
  | inl e1, inl e2 => e1 = e2
  | inr (inl rejection1), inr (inl rejection2) => rejection1 = rejection2
  | inr (inr _), inr (inr _) => True
  | _, _ => False
  end.
Proof.
  intros Hsame. unfold guard_outcome.
  destruct (decoded_token !! "email") as [e|]; [|reflexivity].
  specialize (Hsame e eq_refl). unfold resolved_id in Hsame.
  destruct (PassengersRepository.first_by_email e (passengers (db w1))) as [p1|],
           (PassengersRepository.first_by_email e (passengers (db w2))) as [p2|];
    cbn in Hsame; try discriminate; [|reflexivity].
  injection Hsame as ->.
  destruct (p2 !! "id") as [pid|]; [|reflexivity].
  by destruct (bool_decide (pid = VInt id)).
Qed.

(** ** The repository writes *)

Section RepositoryFacts.

Variable integrity : Store → bool.
Variable column_error : Dict → option Exn.

Local Abbreviation after_update id data w :=
  (PassengersRepository.update_statement id data (clock w) (db w)).
Local Abbreviation after_delete id w := (PassengersRepository.delete_statement id (db w)).

Lemma update_run (id : Z) (data : Dict) (w : World) :
  PassengersRepository.update integrity column_error id data w =
  match column_error (PassengersRepository.update_columns data (clock w)) with
  | Some e => (inl e, mkWorld (db w) (clock w) (calls w ++ [CallUpdate id data]))
  | None =>
      if integrity (after_update id data w)
      then (inr true,
            mkWorld (after_update id data w) (clock w) (calls w ++ [CallUpdate id data]))
      else (inl IntegrityError, mkWorld (db w) (clock w) (calls w ++ [CallUpdate id data]))
  end.
Proof.
  unfold PassengersRepository.update, PassengersRepository.execute.
  eff_unfold. cbn. destruct (column_error _); [done|]. by destruct (integrity _).
Qed.

Lemma delete_run (id : Z) (w : World) :
  PassengersRepository.delete integrity id w =
  if integrity (after_delete id w)
  then (inr true, mkWorld (after_delete id w) (clock w) (calls w ++ [CallDelete id]))
  else (inl IntegrityError, mkWorld (db w) (clock w) (calls w ++ [CallDelete id])).
Proof.
  unfold PassengersRepository.delete, PassengersRepository.execute.
  eff_unfold. cbn. by destruct (integrity _).
Qed.

Lemma update_row_other (id : Z) (columns row : Dict) :
  PassengersRepository.has_id id row = false →
  PassengersRepository.update_row id columns row = row.
Proof. unfold PassengersRepository.update_row. by intros ->. Qed.

Lemma others_idempotent (id : Z) (rows : list Dict) :
  PassengersRepository.others id (PassengersRepository.others id rows) =
  PassengersRepository.others id rows.
Proof.
  unfold PassengersRepository.others. by apply list_filter_filter_l.
Qed.

(** C10: [update] keeps every row at its position and leaves each row
    whose id is not the argument exactly as it was; [delete] removes
    rows without touching the others, so the rows whose id is not the
    argument are the same before and after, in the same order.  Neither
    touches the reservations.  This holds whether or not the statement
    is refused for a constraint. *)
Theorem writes_frame (id : Z) (data : Dict) (w : World) :
  Forall2 (λ before after, PassengersRepository.has_id id before = false → after = before)
          (passengers (db w))
          (passengers (db (PassengersRepository.update integrity column_error id data w).2))
  ∧ PassengersRepository.others id
      (passengers (db (PassengersRepository.delete integrity id w).2))
    = PassengersRepository.others id (passengers (db w))
  ∧ passengers (db (PassengersRepository.delete integrity id w).2)
      `sublist_of` passengers (db w)
  ∧ reservations (db (PassengersRepository.update integrity column_error id data w).2)
    = reservations (db w)
  ∧ reservations (db (PassengersRepository.delete integrity id w).2)
    = reservations (db w).
Proof.
  rewrite update_run, delete_run. split_and!.
  - destruct (column_error _); [by apply Forall_Forall2_diag, Forall_forall|].
    destruct (integrity (after_update id data w)); cbn.
    + apply Forall2_fmap_r, Forall_Forall2_diag, Forall_forall.
      intros row _ Hother. by apply update_row_other.
    + by apply Forall_Forall2_diag, Forall_forall.
  - destruct (integrity (after_delete id w)); cbn; [|done].
    apply others_idempotent.
  - destruct (integrity (after_delete id w)); cbn; [|done].
    apply sublist_filter.
  - destruct (column_error _); [done|]. by destruct (integrity (after_update id data w)).
  - by destruct (integrity (after_delete id w)).
Qed.

End RepositoryFacts.

(** ** The protected handlers *)

Section HandlerFacts.

Variable integrity : Store → bool.
Variable column_error : Dict → option Exn.
Variable model_create : Store → Dict → Exn + (Store * Value).
Variables AlphaStr EmailStr PasswordStr : Value → option string.
Variable int_field : Value → option Z.
Variable jwt_encode : Dict → option Token.

Local Abbreviation validate' := (validate AlphaStr EmailStr PasswordStr int_field).
Local Abbreviation protected' :=
  (protected integrity column_error AlphaStr EmailStr PasswordStr int_field jwt_encode).
Local Abbreviation accepted' := (accepted AlphaStr EmailStr PasswordStr int_field).
Local Abbreviation body_accepted' := (body_accepted AlphaStr EmailStr PasswordStr int_field).
Local Abbreviation proceed' := (proceed integrity column_error jwt_encode).

(** Every protected handler is the body validation, if any, followed by
    the ownership check, followed by the operation proper. *)
Lemma protected_run (op : Protected) (decoded_token : Dict) (id : Z) (w : World) :
  protected' op decoded_token id w =
  match accepted' op with
  | inl errors =>
      (inr (JSONResponse (ValidationErrorResponse errors) HTTP_400_BAD_REQUEST), w)
  | inr o => guarded decoded_token id (proceed' o id) w
  end.
Proof.
  destruct op as [|request| |]; simpl; try reflexivity.
  unfold update_passenger. by destruct (validate' request).
Qed.

Lemma body_accepted_inr (op : Protected) :
  body_accepted' op = true → ∃ o, accepted' op = inr o.
Proof.
  unfold body_accepted. destruct (accepted' op) as [|o]; [discriminate|]. by exists o.
Qed.

(** A body that [PUT] refuses: the answer is 400 before anything else
    happens. *)
Lemma refused_body (op : Protected) (decoded_token : Dict) (id : Z) (s : Store)
    (now : string) :
  body_accepted' op = false →
  ∃ request errors,
    op = Update request
    ∧ validate' request = inl errors
    ∧ run (protected' op decoded_token id) s now =
        (inr (JSONResponse (ValidationErrorResponse errors) HTTP_400_BAD_REQUEST),
         mkWorld s now []).
Proof.
  unfold body_accepted, run. rewrite protected_run.
  destruct op as [|request| |]; cbn [accepted]; try discriminate.
  destruct (validate' request) as [errors|body] eqn:Hvalid; [|discriminate].
  intros _. by exists request, errors.
Qed.

(** C1, as amended: when the row resolved from the token's email has an
    id other than the path id, every protected operation whose request
    body (for [PUT]) passes validation answers 403 with the ownership
    message; the database is left as it was and the only repository call
    made is the lookup by email, so the addressed row is neither read
    nor written.  An operation whose body fails validation, which only
    a [PUT] can be, is answered 400 before the identity is resolved: no
    repository call is made and the database is left as it was. *)
Theorem foreign_resource_forbidden (op : Protected) (decoded_token : Dict) (id : Z)
    (s : Store) (now : string) :
  (∀ (e : Value) (p : Dict) (passenger_id : Value),
     decoded_token !! "email" = Some e →
     PassengersRepository.first_by_email e (passengers s) = Some p →
     p !! "id" = Some passenger_id →
     passenger_id ≠ VInt id →
     body_accepted' op = true →
     run (protected' op decoded_token id) s now =
       (inr forbidden, mkWorld s now [CallGetByEmail e])
     ∧ status_of forbidden = HTTP_403_FORBIDDEN)
  ∧ (body_accepted' op = false →
     ∃ request errors,
       op = Update request
       ∧ validate' request = inl errors
       ∧ run (protected' op decoded_token id) s now =
           (inr (JSONResponse (ValidationErrorResponse errors) HTTP_400_BAD_REQUEST),
            mkWorld s now [])).
Proof.
  split; [|apply refused_body].
  intros e p passenger_id Hemail Hp Hid Hne [o Ho]%body_accepted_inr.
  split; [|reflexivity].
  unfold run. rewrite protected_run, Ho, guarded_run.
  unfold guard_outcome. cbn [db clock calls]. rewrite Hemail, Hp, Hid.
  by rewrite bool_decide_eq_false_2.
Qed.

(** C2, as amended: a protected operation reads nothing from the claims
    but the email (two claim sets with the same email, whatever id or
    other fields they carry, give the same run), and when no row
    resolves for that email an operation whose request body (for [PUT])
    passes validation answers 404, leaving the database as it was.  An
    operation whose body fails validation, which only a [PUT] can be,
    is answered 400 before the email is resolved: no repository call is
    made. *)
Theorem identity_resolved_by_email (op : Protected) (decoded_token : Dict) (id : Z) :
  (∀ (other_claims : Dict) (w : World),
     other_claims !! "email" = decoded_token !! "email" →
     protected' op other_claims id w = protected' op decoded_token id w)
  ∧ (∀ (e : Value) (s : Store) (now : string),
       decoded_token !! "email" = Some e →
       PassengersRepository.first_by_email e (passengers s) = None →
       body_accepted' op = true →
       run (protected' op decoded_token id) s now =
         (inr not_found, mkWorld s now [CallGetByEmail e])
       ∧ status_of not_found = HTTP_404_NOT_FOUND)
  ∧ (∀ (s : Store) (now : string),
       body_accepted' op = false →
       ∃ request errors,
         op = Update request
         ∧ validate' request = inl errors
         ∧ run (protected' op decoded_token id) s now =
             (inr (JSONResponse (ValidationErrorResponse errors) HTTP_400_BAD_REQUEST),
              mkWorld s now [])).
Proof.
  split_and!.
  - intros other_claims w Hsame. rewrite !protected_run.
    destruct (accepted' op) as [|o]; [reflexivity|].
    rewrite !guarded_run. unfold guard_outcome. by rewrite Hsame.
  - intros e s now Hemail Hnone [o Ho]%body_accepted_inr. split; [|reflexivity].
    unfold run. rewrite protected_run, Ho, guarded_run.
    unfold guard_outcome. cbn [db clock calls]. by rewrite Hemail, Hnone.
  - intros s now. apply refused_body.
Qed.

(** Either the ownership check passed, and the run is the operation
    proper, started right after the lookup by email; or it did not, and
    then nothing was written and no call addressed the row. *)
Lemma protected_cases (op : Protected) (decoded_token : Dict) (id : Z) (s : Store)
    (now : string) :
  (∃ e p o,
     decoded_token !! "email" = Some e
     ∧ PassengersRepository.first_by_email e (passengers s) = Some p
     ∧ p !! "id" = Some (VInt id)
     ∧ accepted' op = inr o
     ∧ run (protected' op decoded_token id) s now =
         proceed' o id (Some p) (mkWorld s now [CallGetByEmail e]))
  ∨ ((¬ owner_resolved s decoded_token id ∨ body_accepted' op = false)
     ∧ db (run (protected' op decoded_token id) s now).2 = s
     ∧ Forall (λ c, is_mutation c = false ∧ addresses id c = false)
              (calls (run (protected' op decoded_token id) s now).2)).
Proof.
  unfold run. rewrite protected_run. unfold body_accepted.
  destruct (accepted' op) as [errors|o] eqn:Ho.
  { right. cbn. split_and!; [by right|done|constructor]. }
  rewrite guarded_run. unfold guard_outcome. cbn [db clock calls].
  destruct (decoded_token !! "email") as [e|] eqn:Hemail.
  2:{ right. cbn. split_and!; [left|done|constructor].
      intros (e & p & He & _). congruence. }
  destruct (PassengersRepository.first_by_email e (passengers s)) as [p|] eqn:Hp.
  2:{ right. cbn. split_and!; [left|done|by repeat constructor].
      intros (e' & p & He & Hp' & _). congruence. }
  destruct (p !! "id") as [pid|] eqn:Hid.
  2:{ right. cbn. split_and!; [left|done|by repeat constructor].
      intros (e' & p' & He & Hp' & Hid'). congruence. }
  destruct (decide (pid = VInt id)) as [->|Hne].
  - left. rewrite bool_decide_eq_true_2 by done. by exists e, p, o.
  - right. rewrite bool_decide_eq_false_2 by done. cbn.
    split_and!; [left|done|by repeat constructor].
    intros (e' & p' & He & Hp' & Hid'). congruence.
Qed.

(** The operation proper never answers with one of the two rejections. *)
Lemma proceed_allowed (o : Operation) (id : Z) (passenger : option Dict) (w : World) :
  decision_of (proceed' o id passenger w).1 = Allow.
Proof.
  destruct o as [|body| |]; cbn [proceed].
  - reflexivity.
  - rewrite eff_bind_unfold, update_run.
    destruct (column_error _); [reflexivity|].
    destruct (integrity _); [|reflexivity].
    by destruct (jwt_encode (model_dump body)).
  - rewrite eff_bind_unfold, delete_run. by destruct (integrity _).
  - unfold PassengersRepository.get_reservations. eff_unfold. cbn.
    by destruct (head _).
Qed.

(** A writing operation makes exactly one call, a write to the row [id];
    the table changes only through it. *)
Lemma proceed_writes (o : Operation) (id : Z) (passenger : option Dict) (w : World) :
  (∃ body, o = DoUpdate body) ∨ o = DoDelete →
  ∃ c, calls (proceed' o id passenger w).2 = (calls w ++ [c])%list
       ∧ is_mutation c = true ∧ addresses id c = true.
Proof.
  intros [[body ->]| ->]; cbn [proceed]; rewrite eff_bind_unfold.
  - rewrite update_run. exists (CallUpdate id (model_dump body)).
    destruct (column_error _); [|destruct (integrity _); [destruct (jwt_encode _)|]]; cbn;
      by rewrite bool_decide_eq_true_2.
  - rewrite delete_run. exists (CallDelete id).
    destruct (integrity _); cbn; by rewrite bool_decide_eq_true_2.
Qed.

Lemma accepted_mutating (op : Protected) (o : Operation) :
  mutating op = true → accepted' op = inr o → (∃ body, o = DoUpdate body) ∨ o = DoDelete.
Proof.
  destruct op as [|request| |]; cbn; try discriminate.
  - intros _. destruct (validate' request) as [|body]; [discriminate|].
    intros [= <-]. left. by exists body.
  - intros _ [= <-]. by right.
Qed.

(** C3: for the two writing operations, a run that ends in one of the
    two rejections leaves the database as it was and makes no writing
    call; and whenever the database changed or a writing call was made,
    the claims' email had resolved to a row whose id is the path id, the
    lookup by email came first, and the single write addressed that id. *)
Theorem writes_only_after_guard (op : Protected) (decoded_token : Dict) (id : Z)
    (s : Store) (now : string) :
  mutating op = true →
  (decision_of (run (protected' op decoded_token id) s now).1 ≠ Allow →
     db (run (protected' op decoded_token id) s now).2 = s
     ∧ Forall (λ c, is_mutation c = false)
              (calls (run (protected' op decoded_token id) s now).2))
  ∧ (db (run (protected' op decoded_token id) s now).2 ≠ s
     ∨ Exists (λ c, is_mutation c = true)
              (calls (run (protected' op decoded_token id) s now).2) →
     ∃ e p c,
       decoded_token !! "email" = Some e
       ∧ PassengersRepository.first_by_email e (passengers s) = Some p
       ∧ p !! "id" = Some (VInt id)
       ∧ calls (run (protected' op decoded_token id) s now).2 = [CallGetByEmail e; c]
       ∧ is_mutation c = true ∧ addresses id c = true).
Proof.
  intros Hmut.
  destruct (protected_cases op decoded_token id s now)
    as [(e & p & o & He & Hp & Hid & Ho & Hrun)|(_ & Hdb & Hcalls)].
  - rewrite Hrun. split.
    + intros Hdecision. by rewrite proceed_allowed in Hdecision.
    + intros _.
      destruct (proceed_writes o id (Some p) (mkWorld s now [CallGetByEmail e])
                  (accepted_mutating op o Hmut Ho)) as (c & Hc & Hm & Ha).
      by exists e, p, c.
  - split.
    + intros _. split; [done|].
      eapply Forall_impl; [exact Hcalls|]. by intros c [? _].
    + intros [Hchanged|Hwrite]; [done|].
      apply Exists_exists in Hwrite as (c & Hin & Hc).
      rewrite Forall_forall in Hcalls. destruct (Hcalls c Hin). congruence.
Qed.

Lemma details_db (decoded_token : Dict) (id : Z) (w : World) :
  db (protected' Details decoded_token id w).2 = db w.
Proof.
  rewrite protected_run. cbn [accepted]. rewrite guarded_run.
  pose proof (guard_outcome_db decoded_token id w) as Hdb.
  by destruct (guard_outcome decoded_token id w) as [[exn|[rejection|p]] w'].
Qed.

(** C7: as long as the claims' email resolves to the same passenger id
    (or to none), evaluating the ownership rule again gives the same
    decision: the rule on its own decides the same, every protected
    handler reveals the same decision, and [GET /passengers/{id}]
    evaluated a second time right after the first decides as the first. *)
Theorem guard_decision_stable (op : Protected) (decoded_token : Dict) (id : Z)
    (w1 w2 : World) :
  (∀ e, decoded_token !! "email" = Some e → resolved_id (db w1) e = resolved_id (db w2) e) →
  guard_decision (ownership_guard decoded_token id w1).1 =
  guard_decision (ownership_guard decoded_token id w2).1
  ∧ decision_of (protected' op decoded_token id w1).1 =
    decision_of (protected' op decoded_token id w2).1
  ∧ decision_of (protected' Details decoded_token id
                   (protected' Details decoded_token id w1).2).1 =
    decision_of (protected' Details decoded_token id w1).1.
Proof.
  intros Hsame.
  assert (Hdecide : ∀ o (wa wb : World),
            (∀ e, decoded_token !! "email" = Some e →
                  resolved_id (db wa) e = resolved_id (db wb) e) →
            decision_of (guarded decoded_token id (proceed' o id) wa).1 =
            decision_of (guarded decoded_token id (proceed' o id) wb).1).
  { intros o wa wb Hab. rewrite !guarded_run.
    pose proof (guard_outcome_stable decoded_token id wa wb Hab) as Hout.
    destruct (guard_outcome decoded_token id wa) as [[exn1|[rej1|p1]] wa'],
             (guard_outcome decoded_token id wb) as [[exn2|[rej2|p2]] wb'];
      cbn in Hout; simplify_eq; try done.
    by rewrite !proceed_allowed. }
  rewrite !ownership_guard_outcome. split_and!.
  - pose proof (guard_outcome_stable decoded_token id w1 w2 Hsame) as Hout.
    destruct (guard_outcome decoded_token id w1) as [[exn1|[rej1|p1]] w1'],
             (guard_outcome decoded_token id w2) as [[exn2|[rej2|p2]] w2'];
      cbn in Hout; simplify_eq; done.
  - rewrite !protected_run. destruct (accepted' op) as [|o]; [reflexivity|].
    by apply Hdecide.
  - rewrite !(protected_run Details). cbn [accepted]. apply Hdecide.
    intros e _. pose proof (details_db decoded_token id w1) as Hdb.
    rewrite protected_run in Hdb. cbn [accepted] in Hdb. by rewrite Hdb.
Qed.

Lemma validate_inr (request : Dict) (body : PassengerRequestSchema) :
  validate' request = inr body →
  required request "name" AlphaStr = Some (name body)
  ∧ required request "age" int_field = Some (age body)
  ∧ required request "email" EmailStr = Some (email body)
  ∧ required request "password" PasswordStr = Some (password body).
Proof.
  unfold validate.
  destruct (required request "name" AlphaStr), (required request "age" int_field),
    (required request "email" EmailStr), (required request "password" PasswordStr);
    try discriminate.
  by intros [= <-].
Qed.

Local Abbreviation issuing' :=
  (issuing integrity column_error model_create AlphaStr EmailStr PasswordStr int_field
     jwt_encode).
Local Abbreviation write_succeeds' := (write_succeeds integrity column_error model_create).

(** C9: [POST /passengers/] and [PUT /passengers/{id}] issue a token
    for exactly the validated body.  Whenever the body validates, the
    write goes through and the codec encodes, the answer is 201 and
    carries the encoding of the dumped body; and whenever the answer is
    201, the token in it is the encoding of the dumped validated body
    (the same dictionary that is returned as the passenger), the client
    has sent a password, and, the password type being a validation
    rule, the [password] entry of the encoded claims is the very value
    the client sent. *)
Theorem issued_token_claims (op : Issuing) (s : Store) (now : string) :
  (∀ body token,
     validate' (request_of op) = inr body →
     jwt_encode (model_dump body) = Some token →
     write_succeeds' op s now body →
     ∃ r w',
       run (issuing' op) s now = (inr r, w')
       ∧ status_of r = HTTP_201_CREATED
       ∧ issued r = Some (token, model_dump body))
  ∧ (∀ r w',
       run (issuing' op) s now = (inr r, w') →
       status_of r = HTTP_201_CREATED →
       ∃ body token,
         validate' (request_of op) = inr body
         ∧ jwt_encode (model_dump body) = Some token
         ∧ issued r = Some (token, model_dump body)
         ∧ is_Some (request_of op !! "password")
         ∧ (validation_rule PasswordStr →
            model_dump body !! "password" = request_of op !! "password")).
Proof.
  assert (Hbody : ∀ request body,
            validate' request = inr body →
            is_Some (request !! "password")
            ∧ (validation_rule PasswordStr →
               model_dump body !! "password" = request !! "password")).
  { intros request body (_ & _ & _ & Hpw)%validate_inr.
    unfold required in Hpw. destruct (request !! "password") as [sent|]; [|discriminate].
    cbn in Hpw. split; [done|]. intros Hrule. by apply Hrule in Hpw as ->. }
  split.
  - intros body token Hvalid Htoken Hwrite.
    destruct op as [request|decoded_token id request];
      cbn [issuing request_of write_succeeds] in *; unfold run.
    + destruct Hwrite as (s' & new_id & Hcreate).
      unfold create_passenger. rewrite Hvalid.
      unfold PassengersRepository.create. eff_unfold. cbn [db clock calls].
      rewrite Hcreate, Htoken. by eexists _, _.
    + destruct Hwrite as ((e & p & He & Hp & Hid) & Hcolumns & Hintegrity).
      change (update_passenger integrity column_error AlphaStr EmailStr PasswordStr int_field
                jwt_encode decoded_token id request)
        with (protected' (Update request) decoded_token id).
      rewrite protected_run. cbn [accepted]. rewrite Hvalid, guarded_run.
      unfold guard_outcome. cbn [db clock calls]. rewrite He, Hp, Hid.
      rewrite bool_decide_eq_true_2 by done.
      cbn [proceed]. rewrite eff_bind_unfold, update_run. cbn [db clock calls].
      rewrite Hcolumns, Hintegrity, Htoken. by eexists _, _.
  - destruct op as [request|decoded_token id request]; cbn [issuing request_of]; unfold run;
      intros r w'.
    + unfold create_passenger.
      destruct (validate' request) as [errors|body] eqn:Hvalid.
      { intros [= <- <-]. discriminate. }
      unfold PassengersRepository.create. eff_unfold. cbn [db clock calls].
      destruct (model_create s (model_dump body)) as [exn|[s' result]].
      * destruct exn; intros [= <- <-]; discriminate.
      * destruct (jwt_encode (model_dump body)) as [token|] eqn:Htoken.
        -- intros [= <- <-] _. destruct (Hbody request body Hvalid). by exists body, token.
        -- intros [= <- <-]. discriminate.
    + change (update_passenger integrity column_error AlphaStr EmailStr PasswordStr int_field
                jwt_encode decoded_token id request)
        with (protected' (Update request) decoded_token id).
      rewrite protected_run. cbn [accepted].
      destruct (validate' request) as [errors|body] eqn:Hvalid.
      { intros [= <- <-]. discriminate. }
      rewrite guarded_run.
      destruct (guard_outcome decoded_token id _) as [[exn|[rejection|p]] w1] eqn:Hguard.
      * discriminate.
      * intros [= <- <-] Hstatus. unfold guard_outcome in Hguard.
        repeat case_match; simplify_eq; discriminate.
      * cbn [proceed]. rewrite eff_bind_unfold, update_run.
        destruct (column_error _); [discriminate|].
        destruct (integrity _); [|discriminate].
        destruct (jwt_encode (model_dump body)) as [token|] eqn:Htoken.
        -- intros [= <- <-] _. destruct (Hbody request body Hvalid). by exists body, token.
        -- intros [= <- <-]. discriminate.
Qed.

(** C8: [GET /passengers/] is routed straight to its handler.  Whatever
    the [Authorization] header is, and whatever the bearer dependency
    would answer to it, the response is 200 with every row of the
    passengers table, each with all its columns; the database is only
    read. *)
Theorem list_not_gated (JWTBearerDependencie : Authorization → Response + Dict)
    (authorization : Authorization) (s : Store) (now : string) :
  run (route integrity column_error model_create AlphaStr EmailStr PasswordStr int_field
         jwt_encode JWTBearerDependencie authorization GET_passengers) s now
  = (inr (JSONResponse (SuccessResponse (DataRows (passengers s))) HTTP_200_OK),
     mkWorld s now [CallGetPassengers]).
Proof. reflexivity. Qed.

End HandlerFacts.

(** ** Login and the token codec *)

Section AuthFacts.

Variable config : Auth.Config.
Variable signature_first : bool.
Variable verify_password : Dict → string → bool.

Local Abbreviation login' := (Auth.login config verify_password).

Lemma login_run (now : Z) (login_email login_password : string) (w : World) :
  login' now login_email login_password w =
  (inr match PassengersRepository.first_by_email (VStr login_email) (passengers (db w)) with
       | None => inl Auth.IdentityNotFound
       | Some passenger =>
           if verify_password passenger login_password
           then inr (Auth.encode config now passenger)
           else inl Auth.InvalidCredentials
       end,
   mkWorld (db w) (clock w) (calls w ++ [CallGetByEmail (VStr login_email)])).
Proof.
  unfold Auth.login. rewrite eff_bind_unfold, get_by_email_run.
  destruct (PassengersRepository.first_by_email _ _) as [passenger|]; [|reflexivity].
  by destruct (verify_password passenger login_password).
Qed.

(** C4: login answers 404 when the email resolves to no row; 401 with
    the message "Invalid password" when it resolves but the password
    check fails; a token with 200 when the check succeeds; and a 200
    only in that last case.  The database is left as it was. *)
Theorem login_outcomes (now : Z) (login_email login_password : string) (w : World) :
  (PassengersRepository.first_by_email (VStr login_email) (passengers (db w)) = None →
     (login' now login_email login_password w).1 = inr (inl Auth.IdentityNotFound)
     ∧ Auth.login_status (inl Auth.IdentityNotFound) = HTTP_404_NOT_FOUND)
  ∧ (∀ passenger,
       PassengersRepository.first_by_email (VStr login_email) (passengers (db w)) =
         Some passenger →
       verify_password passenger login_password = false →
       (login' now login_email login_password w).1 = inr (inl Auth.InvalidCredentials)
       ∧ Auth.login_status (inl Auth.InvalidCredentials) = HTTP_401_UNAUTHORIZED
       ∧ Auth.login_message (inl Auth.InvalidCredentials) = Some "Invalid password")
  ∧ (∀ passenger,
       PassengersRepository.first_by_email (VStr login_email) (passengers (db w)) =
         Some passenger →
       verify_password passenger login_password = true →
       ∃ token,
         (login' now login_email login_password w).1 = inr (inr token)
         ∧ Auth.login_status (inr token) = HTTP_200_OK
         ∧ Auth.login_token (inr token) = Some token)
  ∧ (∀ outcome,
       (login' now login_email login_password w).1 = inr outcome →
       Auth.login_status outcome = HTTP_200_OK →
       ∃ passenger,
         PassengersRepository.first_by_email (VStr login_email) (passengers (db w)) =
           Some passenger
         ∧ verify_password passenger login_password = true)
  ∧ db (login' now login_email login_password w).2 = db w.
Proof.
  rewrite login_run. cbn [fst snd db]. split_and!.
  - by intros ->.
  - by intros passenger -> ->.
  - intros passenger -> ->. by eexists.
  - intros outcome.
    destruct (PassengersRepository.first_by_email _ _) as [passenger|].
    + destruct (verify_password passenger login_password) eqn:Hverify.
      * intros _ _. by exists passenger.
      * intros [= <-]. discriminate.
    + intros [= <-]. discriminate.
  - reflexivity.
Qed.

(** C5: a token returned by login, presented as a bearer token no later
    than its expiry (in particular at the instant of the login, when the
    validity duration is not negative), is accepted by the bearer
    authenticator, and the claims it yields carry the login email. *)
Theorem login_then_decode (now later : Z) (login_email login_password : string)
    (w : World) (token : Token) :
  (login' now login_email login_password w).1 = inr (inr token) →
  (later ≤ now + Auth.expires_in config)%Z →
  ∃ claims,
    Auth.bearer_authenticator config signature_first later (Some ("Bearer", token))
      = inr claims
    ∧ claims !! "email" = Some (VStr login_email).
Proof.
  rewrite login_run. cbn [fst].
  destruct (PassengersRepository.first_by_email _ _) as [passenger|] eqn:Hfound;
    [|discriminate].
  destruct (verify_password passenger login_password); [|discriminate].
  intros [= <-] Hlater. exists passenger. split.
  - unfold Auth.bearer_authenticator, Auth.decode, Auth.encode.
    rewrite bool_decide_eq_true_2 by done. cbn zeta.
    rewrite (bool_decide_eq_false_2 (_ < _)) by lia.
    rewrite (bool_decide_eq_false_2 (_ ≠ _)) by (intros H; by apply H).
    by destruct signature_first.
  - by apply first_by_email_Some in Hfound as [? _].
Qed.

(** A token signed with the configured key and past its expiry is
    [Expired], whichever check comes first. *)
Lemma decode_own_key_expired (now : Z) (exp : Z) (claims : Dict) :
  (exp < now)%Z →
  Auth.decode config signature_first now (Signed (Auth.secret_key config) exp claims)
  = inl Auth.Expired.
Proof.
  intros Hpast. unfold Auth.decode. cbn zeta.
  rewrite (bool_decide_eq_true_2 (_ < _)) by done.
  rewrite (bool_decide_eq_false_2 (_ ≠ _)) by (intros H; by apply H).
  by destruct signature_first.
Qed.

(** A token that is both past its expiry and signed with another key
    gets the failure of the check that comes first: no order of the two
    checks reports such a token as [Expired] and as [SignatureInvalid]
    at once. *)
Lemma decode_expired_foreign (now : Z) (key : string) (exp : Z) (claims : Dict) :
  (exp < now)%Z → key ≠ Auth.secret_key config →
  Auth.decode config signature_first now (Signed key exp claims)
  = inl (if signature_first then Auth.SignatureInvalid else Auth.Expired).
Proof.
  intros Hpast Hkey. unfold Auth.decode. cbn zeta.
  rewrite (bool_decide_eq_true_2 (_ < _)) by done.
  rewrite (bool_decide_eq_true_2 (_ ≠ _)) by done.
  by destruct signature_first.
Qed.

End AuthFacts.

Import Sample.

(** C1 on the sample data: Ana's token on Ben's row, for each of the
    four operations, and for a [PUT] whose body lacks the password. *)
Lemma foreign_resource_forbidden_witness :
  let rejected op :=
    run (protected no_constraints any_columns str_type str_type str_type int_type jwt
           op ana_claims 2) store noon
    = (inr forbidden, mkWorld store noon [CallGetByEmail (VStr "ana@example.com")]) in
  (rejected Details ∧ rejected (Update new_ana) ∧ rejected Delete ∧ rejected Reservations)
  ∧ ∃ request errors,
      Update (delete "password" new_ana) = Update request
      ∧ validate str_type str_type str_type int_type request = inl errors
      ∧ run (protected no_constraints any_columns str_type str_type str_type int_type jwt
               (Update (delete "password" new_ana)) ana_claims 2) store noon
        = (inr (JSONResponse (ValidationErrorResponse errors) HTTP_400_BAD_REQUEST),
           mkWorld store noon []).
Proof.
  split.
  - split_and!;
      apply (proj1 (foreign_resource_forbidden no_constraints any_columns str_type str_type
                      str_type int_type jwt _ ana_claims 2 store noon)
               (VStr "ana@example.com") ana (VInt 1));
      first [reflexivity | discriminate].
  - apply (proj2 (foreign_resource_forbidden no_constraints any_columns str_type str_type
                    str_type int_type jwt (Update (delete "password" new_ana))
                    ana_claims 2 store noon)).
    reflexivity.
Defined.

(** C1 as stated fails for [PUT]: with a request body that does not
    validate, Ana's token on Ben's row is answered 400, not 403. *)
Lemma put_invalid_body_not_forbidden :
  ana_claims !! "email" = Some (VStr "ana@example.com")
  ∧ PassengersRepository.first_by_email (VStr "ana@example.com") (passengers store) = Some ana
  ∧ ana !! "id" = Some (VInt 1)
  ∧ VInt 1 ≠ VInt 2
  ∧ run (update_passenger no_constraints any_columns str_type str_type str_type int_type jwt
           ana_claims 2 ∅) store noon
    = (inr (JSONResponse (ValidationErrorResponse ["name"; "age"; "email"; "password"])
                         HTTP_400_BAD_REQUEST),
       mkWorld store noon [])
  ∧ HTTP_400_BAD_REQUEST ≠ HTTP_403_FORBIDDEN.
Proof. repeat split; try reflexivity; discriminate. Qed.

(** C2 on the sample data: extra claims (a stale id among them) change
    nothing, a token whose account is gone is answered 404, and with a
    body that lacks the password it is answered 400. *)
Lemma identity_resolved_by_email_witness :
  protected no_constraints any_columns str_type str_type str_type int_type jwt
    Details (<["id" := VInt 2]> ana_claims) 2 (mkWorld store noon [])
  = protected no_constraints any_columns str_type str_type str_type int_type jwt
      Details ana_claims 2 (mkWorld store noon [])
  ∧ run (protected no_constraints any_columns str_type str_type str_type int_type jwt
           Delete eve_claims 2) store noon
    = (inr not_found, mkWorld store noon [CallGetByEmail (VStr "eve@example.com")])
  ∧ ∃ request errors,
      Update (delete "password" new_ana) = Update request
      ∧ validate str_type str_type str_type int_type request = inl errors
      ∧ run (protected no_constraints any_columns str_type str_type str_type int_type jwt
               (Update (delete "password" new_ana)) eve_claims 2) store noon
        = (inr (JSONResponse (ValidationErrorResponse errors) HTTP_400_BAD_REQUEST),
           mkWorld store noon []).
Proof.
  destruct (identity_resolved_by_email no_constraints any_columns str_type str_type str_type
              int_type jwt Details ana_claims 2) as (Hclaims & _ & _).
  destruct (identity_resolved_by_email no_constraints any_columns str_type str_type str_type
              int_type jwt Delete eve_claims 2) as (_ & Hgone & _).
  destruct (identity_resolved_by_email no_constraints any_columns str_type str_type str_type
              int_type jwt (Update (delete "password" new_ana)) eve_claims 2)
    as (_ & _ & Hrefused).
  split_and!.
  - apply Hclaims. reflexivity.
  - apply (Hgone (VStr "eve@example.com") store noon); reflexivity.
  - apply (Hrefused store noon). reflexivity.
Defined.

(** C2 as stated fails for [PUT]: with a request body that does not
    validate, a token whose account is gone is answered 400, not 404. *)
Lemma put_invalid_body_not_not_found :
  eve_claims !! "email" = Some (VStr "eve@example.com")
  ∧ PassengersRepository.first_by_email (VStr "eve@example.com") (passengers store) = None
  ∧ run (update_passenger no_constraints any_columns str_type str_type str_type int_type jwt
           eve_claims 2 ∅) store noon
    = (inr (JSONResponse (ValidationErrorResponse ["name"; "age"; "email"; "password"])
                         HTTP_400_BAD_REQUEST),
       mkWorld store noon [])
  ∧ HTTP_400_BAD_REQUEST ≠ HTTP_404_NOT_FOUND.
Proof. repeat split; try reflexivity; discriminate. Qed.

(** C3 on the sample data: Ana's token cannot delete Ben's row, and the
    tables stay as they were. *)
Lemma writes_only_after_guard_witness :
  mutating Delete = true
  ∧ db (run (protected no_constraints any_columns str_type str_type str_type int_type jwt
               Delete ana_claims 2) store noon).2 = store
  ∧ Forall (λ c, is_mutation c = false)
           (calls (run (protected no_constraints any_columns str_type str_type str_type int_type jwt
                          Delete ana_claims 2) store noon).2).
Proof.
  split; [reflexivity|].
  apply (writes_only_after_guard no_constraints any_columns str_type str_type str_type int_type jwt
           Delete ana_claims 2 store noon); [reflexivity|].
  vm_compute. discriminate.
Defined.

(** C7 on the sample data: after Ana's row has been updated in place
    (same email, same id), her token on Ben's row is rejected as before. *)
Lemma guard_decision_stable_witness :
  decision_of (protected no_constraints any_columns str_type str_type str_type int_type jwt
                 Details ana_claims 2 (mkWorld store noon [])).1
  = decision_of (protected no_constraints any_columns str_type str_type str_type int_type jwt
                   Details ana_claims 2
                   (mkWorld (PassengersRepository.update_statement 1
                               {["name" := VStr "Anna"]} noon store) noon [])).1.
Proof.
  apply (guard_decision_stable no_constraints any_columns str_type str_type str_type int_type jwt
           Details ana_claims 2).
  intros e He. vm_compute in He. injection He as <-. reflexivity.
Defined.

(** C10 on the sample data: updating or deleting row 1 leaves Ben's row
    (id 2) as it was. *)
Lemma writes_frame_witness :
  passengers (db (PassengersRepository.update no_constraints any_columns 1 new_ana
                    (mkWorld store noon [])).2) !! 1%nat = Some ben
  ∧ PassengersRepository.others 1
      (passengers (db (PassengersRepository.delete no_constraints 1
                         (mkWorld store noon [])).2)) = [ben].
Proof.
  destruct (writes_frame no_constraints any_columns 1 new_ana (mkWorld store noon []))
    as (Hupdate & Hdelete & _).
  split.
  - apply Forall2_lookup_l with (i := 1%nat) (x := ben) in Hupdate as (after & -> & Hsame);
      [|reflexivity].
    f_equal. by apply Hsame.
  - rewrite Hdelete. reflexivity.
Defined.

(** C4 on the sample data: an unknown email, a wrong password and the
    right password. *)
Lemma login_outcomes_witness :
  (Auth.login config same_password 1000 "eve@example.com" "Asdfghjk1"
     (mkWorld store noon [])).1 = inr (inl Auth.IdentityNotFound)
  ∧ (Auth.login config same_password 1000 "ana@example.com" "Asdfghjk11"
       (mkWorld store noon [])).1 = inr (inl Auth.InvalidCredentials)
  ∧ ∃ token,
      (Auth.login config same_password 1000 "ana@example.com" "Asdfghjk1"
         (mkWorld store noon [])).1 = inr (inr token).
Proof.
  split_and!.
  - apply (login_outcomes config same_password 1000 "eve@example.com" "Asdfghjk1"
             (mkWorld store noon [])). reflexivity.
  - apply (login_outcomes config same_password 1000 "ana@example.com" "Asdfghjk11"
             (mkWorld store noon [])) with (passenger := ana); reflexivity.
  - destruct (login_outcomes config same_password 1000 "ana@example.com" "Asdfghjk1"
                (mkWorld store noon [])) as (_ & _ & Hok & _).
    destruct (Hok ana) as (token & Htoken & _); [reflexivity..|].
    by exists token.
Defined.

(** C5 on the sample data: Ana logs in at time 1000 and presents the
    token at once. *)
Lemma login_then_decode_witness :
  ∃ claims,
    Auth.bearer_authenticator config true 1000
      (Some ("Bearer", Auth.encode config 1000 ana)) = inr claims
    ∧ claims !! "email" = Some (VStr "ana@example.com").
Proof.
  apply (login_then_decode config true same_password 1000 1000 "ana@example.com" "Asdfghjk1"
           (mkWorld store noon [])).
  - reflexivity.
  - vm_compute. discriminate.
Defined.

(** C9 on the sample data: a new passenger is created; the answer is
    201, the token in it encodes the validated body, and the password
    in that body is the one sent. *)
Lemma issued_token_claims_witness :
  validation_rule str_type
  ∧ (∃ r w',
       run (issuing no_constraints any_columns append_row str_type str_type str_type
              int_type jwt (Post new_ana)) store noon = (inr r, w')
       ∧ status_of r = HTTP_201_CREATED
       ∧ issued r = Some (Auth.encode config 1000 new_ana, new_ana))
  ∧ (∃ body token,
       validate str_type str_type str_type int_type (request_of (Post new_ana)) = inr body
       ∧ jwt (model_dump body) = Some token
       ∧ issued (JSONResponse
                   (SuccessResponse
                      (DataCreated (VInt 3) new_ana (Auth.encode config 1000 new_ana)))
                   HTTP_201_CREATED)
         = Some (token, model_dump body)
       ∧ is_Some (request_of (Post new_ana) !! "password")
       ∧ model_dump body !! "password" = request_of (Post new_ana) !! "password").
Proof.
  assert (Hrule : validation_rule str_type).
  { intros [| |sent] accepted; cbn; [discriminate..|]. by intros [= ->]. }
  destruct (issued_token_claims no_constraints any_columns append_row str_type str_type
              str_type int_type jwt (Post new_ana) store noon) as [Hissue Hissued].
  split_and!.
  - exact Hrule.
  - apply (Hissue (mkPassengerRequest "Ana" 32 "ana@example.org" "New3241x")
             (Auth.encode config 1000 new_ana)); [reflexivity..|].
    by eexists _, _.
  - destruct (Hissued _ (mkWorld (mkStore [ana; ben; <["id" := VInt 3]> new_ana]
                                          (reservations store))
                                 noon [CallCreate new_ana]) eq_refl eq_refl)
      as (body & token & Hvalid & Htoken & Hissued' & Hsent & Hsame).
    exists body, token. split_and!; [done..|]. exact (Hsame Hrule).
Defined.

(** The same run, spelled out: the claims inside the issued token are
    the request body, with the password as the client sent it. *)
Example post_token_carries_password :
  (run (create_passenger append_row str_type str_type str_type int_type jwt new_ana)
       store noon).1
  = inr (JSONResponse
           (SuccessResponse (DataCreated (VInt 3) new_ana (Signed "k1" 4600 new_ana)))
           HTTP_201_CREATED)
  ∧ new_ana !! "password" = Some (VStr "New3241x").
Proof. split; reflexivity. Qed.

(** The scenarios of the test suite on the sample data: Ana reads her
    own row, and deletes it. *)
Example get_own_row :
  run (get_passenger_details ana_claims 1) store noon
  = (inr (JSONResponse (SuccessResponse (DataRow ana)) HTTP_200_OK),
     mkWorld store noon [CallGetByEmail (VStr "ana@example.com")]).
Proof. reflexivity. Qed.

Example delete_own_row :
  run (delete_passenger no_constraints ana_claims 1) store noon
  = (inr (EmptyResponse HTTP_204_NO_CONTENT),
     mkWorld (mkStore [ben] (reservations store)) noon
             [CallGetByEmail (VStr "ana@example.com"); CallDelete 1]).
Proof. reflexivity. Qed.

Example list_reservations_of_own_row :
  (run (get_passenger_reservations 1 ana_claims) store noon).1
  = inr (JSONResponse (SuccessResponse (DataRows [{["destination" := VStr "Lima"]}]))
                      HTTP_200_OK).
Proof. reflexivity. Qed.

(** * Further properties of the repository *)

Section ListFacts.

Context {A : Type} (P : A → Prop) `{!∀ x, base.Decision (P x)}.

Lemma head_filter_None (l : list A) :
  head (filter P l) = None ↔ Forall (λ x, ¬ P x) l.
Proof.
  induction l as [|x l IH]; [by split; [constructor|] |].
  rewrite filter_cons. destruct (decide (P x)) as [HP|HP]; cbn.
  - split; [discriminate|]. intros [Hx _]%Forall_cons. contradiction.
  - rewrite IH, Forall_cons. tauto.
Qed.

(** The head of a filtered list is its first element that passes. *)
Lemma head_filter_Some (l : list A) (x : A) :
  head (filter P l) = Some x ↔
  ∃ before after, l = (before ++ x :: after)%list ∧ P x ∧ Forall (λ y, ¬ P y) before.
Proof.
  induction l as [|y l IH].
  - split; [discriminate|]. intros (before & after & Hl & _). by destruct before.
  - rewrite filter_cons. destruct (decide (P y)) as [HP|HP]; cbn.
    + split.
      * intros [= ->]. exists [], l. by repeat split.
      * intros ([|z before] & after & Hl & Hx & Hbefore); simplify_eq/=; [done|].
        apply Forall_cons in Hbefore as [Hz _]. contradiction.
    + rewrite IH. split.
      * intros (before & after & -> & Hx & Hbefore).
        exists (y :: before), after. repeat split; [done|]. by constructor.
      * intros ([|z before] & after & Hl & Hx & Hbefore); simplify_eq/=; [done|].
        apply Forall_cons in Hbefore as [_ Hbefore]. by exists before, after.
Qed.

End ListFacts.

Lemma has_id_true (i : Z) (row : Dict) :
  PassengersRepository.has_id i row = true ↔ row !! "id" = Some (VInt i).
Proof. unfold PassengersRepository.has_id. apply bool_decide_eq_true. Qed.

Lemma has_id_false (i : Z) (row : Dict) :
  PassengersRepository.has_id i row = false ↔ row !! "id" ≠ Some (VInt i).
Proof. unfold PassengersRepository.has_id. apply bool_decide_eq_false. Qed.

Lemma has_email_true (e : Value) (row : Dict) :
  PassengersRepository.has_email e row = true ↔ row !! "email" = Some e.
Proof. unfold PassengersRepository.has_email. apply bool_decide_eq_true. Qed.

Lemma has_email_false (e : Value) (row : Dict) :
  PassengersRepository.has_email e row = false ↔ row !! "email" ≠ Some e.
Proof. unfold PassengersRepository.has_email. apply bool_decide_eq_false. Qed.

Lemma first_by_email_None (e : Value) (rows : list Dict) :
  PassengersRepository.first_by_email e rows = None ↔
  Forall (λ row, row !! "email" ≠ Some e) rows.
Proof.
  unfold PassengersRepository.first_by_email. rewrite head_filter_None.
  apply Forall_proper; [|done]. intros row.
  rewrite <- has_email_false. by destruct (PassengersRepository.has_email e row).
Qed.

Lemma first_by_email_split (e : Value) (rows : list Dict) (p : Dict) :
  PassengersRepository.first_by_email e rows = Some p ↔
  ∃ before after, rows = (before ++ p :: after)%list ∧ p !! "email" = Some e
                  ∧ Forall (λ row, row !! "email" ≠ Some e) before.
Proof.
  unfold PassengersRepository.first_by_email. rewrite head_filter_Some.
  do 2 (apply exist_proper; intros ?). rewrite has_email_true.
  do 2 (apply and_iff_compat_l).
  apply Forall_proper; [|done]. intros row.
  rewrite <- has_email_false. by destruct (PassengersRepository.has_email e row).
Qed.

Lemma id_column_of (row : Dict) (v : Value) :
  row !! "id" = Some v → PassengersRepository.id_column row = {["id" := v]}.
Proof.
  intros Hid. apply map_eq. intros k. unfold PassengersRepository.id_column.
  destruct (decide (k = "id")) as [->|Hk].
  - rewrite lookup_singleton_eq. by apply map_lookup_filter_Some.
  - rewrite lookup_singleton_ne by done. apply map_lookup_filter_None.
    right. by intros x _.
Qed.

(** X1: [get_by_email] answers with the first row of the table whose
    email is the one asked for (every row before it has another email),
    or with [None] exactly when no row has that email; it only reads. *)
Theorem get_by_email_first_match (e : Value) (w : World) :
  ∃ found,
    PassengersRepository.get_by_email e w =
      (inr found, mkWorld (db w) (clock w) (calls w ++ [CallGetByEmail e]))
    ∧ match found with
      | None => Forall (λ row, row !! "email" ≠ Some e) (passengers (db w))
      | Some p =>
          ∃ before after,
            passengers (db w) = (before ++ p :: after)%list
            ∧ p !! "email" = Some e
            ∧ Forall (λ row, row !! "email" ≠ Some e) before
      end.
Proof.
  exists (PassengersRepository.first_by_email e (passengers (db w))).
  split; [reflexivity|].
  destruct (PassengersRepository.first_by_email e (passengers (db w))) as [p|] eqn:Hp.
  - by apply first_by_email_split.
  - by apply first_by_email_None.
Qed.

(** X2: [get_passenger_by_id] answers [None] exactly when no row has the
    id, and otherwise with a dictionary that holds the id and nothing
    else: no other column of the row is exposed.  The world is left as
    it was. *)
Theorem get_passenger_by_id_result (passenger_id : Z) (w : World) :
  ∃ found,
    PassengersRepository.get_passenger_by_id passenger_id w = (inr found, w)
    ∧ match found with
      | None => Forall (λ row, row !! "id" ≠ Some (VInt passenger_id)) (passengers (db w))
      | Some d =>
          d = {["id" := VInt passenger_id]}
          ∧ ∃ row, row ∈ passengers (db w) ∧ row !! "id" = Some (VInt passenger_id)
      end.
Proof.
  unfold PassengersRepository.get_passenger_by_id. eff_unfold.
  destruct (head (filter (λ row, PassengersRepository.has_id passenger_id row = true)
                         (passengers (db w)))) as [row|] eqn:Hhead.
  - exists (Some (PassengersRepository.id_column row)). split; [reflexivity|].
    apply head_Some_elem_of in Hhead.
    apply list_elem_of_filter in Hhead as [Hid Hin]. apply has_id_true in Hid.
    split; [by apply id_column_of|]. by exists row.
  - exists None. split; [reflexivity|].
    apply head_filter_None in Hhead.
    eapply Forall_impl; [exact Hhead|]. intros row Hrow.
    apply has_id_false. by apply not_true_is_false.
Qed.

(** ** Writes, repeated and combined *)

Lemma update_columns_id (data : Dict) (now : string) :
  PassengersRepository.update_columns data now !! "id" = data !! "id".
Proof. unfold PassengersRepository.update_columns. by rewrite lookup_insert_ne. Qed.

Lemma update_row_twice (id : Z) (columns row : Dict) :
  PassengersRepository.update_row id columns (PassengersRepository.update_row id columns row)
  = PassengersRepository.update_row id columns row.
Proof.
  destruct (PassengersRepository.has_id id row) eqn:Hrow.
  - unfold PassengersRepository.update_row. rewrite Hrow.
    destruct (PassengersRepository.has_id id (columns ∪ row)); [|done].
    by rewrite (assoc_L (∪)), (idemp_L (∪) columns).
  - rewrite (update_row_other id columns row Hrow). by apply update_row_other.
Qed.

Lemma update_row_id_of (id : Z) (columns row : Dict) :
  columns !! "id" = None →
  id_of (PassengersRepository.update_row id columns row) = id_of row.
Proof.
  intros Hcolumns. unfold PassengersRepository.update_row, id_of.
  destruct (PassengersRepository.has_id id row); [|done].
  by apply lookup_union_r.
Qed.

Lemma has_id_id_of (i : Z) (row row' : Dict) :
  id_of row' = id_of row →
  PassengersRepository.has_id i row' = PassengersRepository.has_id i row.
Proof. unfold PassengersRepository.has_id, id_of. by intros ->. Qed.

Lemma update_statement_twice (id : Z) (data : Dict) (now : string) (s : Store) :
  PassengersRepository.update_statement id data now
    (PassengersRepository.update_statement id data now s)
  = PassengersRepository.update_statement id data now s.
Proof.
  unfold PassengersRepository.update_statement. cbn. f_equal.
  rewrite <- list_fmap_compose. apply list_fmap_ext. intros _ row _. cbn.
  apply update_row_twice.
Qed.

Lemma update_statement_ids (id : Z) (data : Dict) (now : string) (s : Store) :
  data !! "id" = None →
  ids (passengers (PassengersRepository.update_statement id data now s)) = ids (passengers s).
Proof.
  intros Hdata. unfold ids, PassengersRepository.update_statement. cbn.
  rewrite <- list_fmap_compose. apply list_fmap_ext. intros _ row _. cbn.
  apply update_row_id_of. by rewrite update_columns_id.
Qed.

Lemma others_update (id : Z) (columns : Dict) (rows : list Dict) :
  columns !! "id" = None →
  PassengersRepository.others id (PassengersRepository.update_row id columns <$> rows)
  = PassengersRepository.others id rows.
Proof.
  intros Hcolumns. unfold PassengersRepository.others.
  induction rows as [|row rows IH]; [done|].
  rewrite fmap_cons, !filter_cons, IH.
  rewrite (has_id_id_of id row _ (update_row_id_of id columns row Hcolumns)).
  destruct (decide (PassengersRepository.has_id id row = false)) as [Hrow|Hrow]; [|done].
  by rewrite update_row_other.
Qed.

Lemma others_no_id (id : Z) (rows : list Dict) :
  Forall (λ row, row !! "id" ≠ Some (VInt id)) (PassengersRepository.others id rows).
Proof.
  apply Forall_forall. intros row Hrow.
  apply list_elem_of_filter in Hrow as [Hrow _]. by apply has_id_false.
Qed.

Lemma get_reservations_cases (id : Z) (w : World) :
  db (PassengersRepository.get_reservations id w).2 = db w
  ∧ (((PassengersRepository.get_reservations id w).1 = inl DoesNotExist
      ∧ Forall (λ row, row !! "id" ≠ Some (VInt id)) (passengers (db w)))
     ∨ ((∃ row, row ∈ passengers (db w) ∧ row !! "id" = Some (VInt id))
        ∧ (PassengersRepository.get_reservations id w).1 =
            inr ((filter (λ r, r.1 = id) (reservations (db w))).*2))).
Proof.
  unfold PassengersRepository.get_reservations. eff_unfold. cbn [db clock calls].
  destruct (head (filter (λ row, PassengersRepository.has_id id row = true)
                         (passengers (db w)))) as [row|] eqn:Hhead; cbn.
  - split; [done|]. right. split.
    + apply head_Some_elem_of in Hhead.
      apply list_elem_of_filter in Hhead as [Hid Hin]. apply has_id_true in Hid.
      by exists row.
    + do 2 f_equal. apply list_filter_iff. intros r.
      by rewrite bool_decide_eq_true.
  - split; [done|]. left. split; [done|].
    apply head_filter_None in Hhead.
    eapply Forall_impl; [exact Hhead|]. intros row Hrow.
    apply has_id_false. by apply not_true_is_false.
Qed.

Section WriteFacts.

Variable integrity : Store → bool.
Variable column_error : Dict → option Exn.

(** X3: [update] is idempotent: repeating it with the same id and data
    at the same clock reading changes nothing more, whether the first
    call went through or was refused, for a constraint or by a column. *)
Theorem update_repeated (id : Z) (data : Dict) (w : World) :
  db (PassengersRepository.update integrity column_error id data
        (PassengersRepository.update integrity column_error id data w).2).2
  = db (PassengersRepository.update integrity column_error id data w).2.
Proof.
  rewrite (update_run integrity column_error id data w).
  destruct (column_error (PassengersRepository.update_columns data (clock w))) eqn:Hcolumns.
  { rewrite update_run. cbn [snd db clock]. by rewrite Hcolumns. }
  destruct (integrity (PassengersRepository.update_statement id data (clock w) (db w)))
    eqn:Hfirst; rewrite update_run; cbn [snd db clock]; rewrite Hcolumns.
  - by rewrite update_statement_twice, Hfirst.
  - by rewrite Hfirst.
Qed.

(** X4: [delete] either goes through, and then no row with the id is
    left, no row was added and the log gained the one call; or it is
    refused with [IntegrityError] and the tables are as before.  It
    raises nothing else. *)
Theorem delete_outcome (id : Z) (w : World) :
  ((PassengersRepository.delete integrity id w).1 = inr true
   ∧ Forall (λ row, row !! "id" ≠ Some (VInt id))
            (passengers (db (PassengersRepository.delete integrity id w).2))
   ∧ (length (passengers (db (PassengersRepository.delete integrity id w).2))
      ≤ length (passengers (db w)))%nat)
  ∨ ((PassengersRepository.delete integrity id w).1 = inl IntegrityError
     ∧ db (PassengersRepository.delete integrity id w).2 = db w).
Proof.
  rewrite delete_run.
  destruct (integrity (PassengersRepository.delete_statement id (db w))); [left|right]; cbn.
  - split_and!; [done|apply others_no_id|apply length_filter].
  - done.
Qed.

(** X5: for data that does not set the id column, deleting a row after
    updating it gives the same tables as deleting it right away. *)
Theorem delete_after_update (id : Z) (data : Dict) (now : string) (s : Store) :
  data !! "id" = None →
  PassengersRepository.delete_statement id
    (PassengersRepository.update_statement id data now s)
  = PassengersRepository.delete_statement id s.
Proof.
  intros Hdata. unfold PassengersRepository.delete_statement,
    PassengersRepository.update_statement. cbn. f_equal.
  apply others_update. by rewrite update_columns_id.
Qed.

(** X6: [get_reservations] raises [DoesNotExist] exactly when no row of
    the passengers table has the id; otherwise it answers with the
    reservations that belong to that id, in table order.  It only
    reads: the tables are as before and the log gains the one call. *)
Theorem get_reservations_outcome (id : Z) (w : World) :
  (PassengersRepository.get_reservations id w).2 =
    mkWorld (db w) (clock w) (calls w ++ [CallGetReservations id])
  ∧ (((PassengersRepository.get_reservations id w).1 = inl DoesNotExist
      ∧ Forall (λ row, row !! "id" ≠ Some (VInt id)) (passengers (db w)))
     ∨ ((∃ row, row ∈ passengers (db w) ∧ row !! "id" = Some (VInt id))
        ∧ (PassengersRepository.get_reservations id w).1 =
            inr ((filter (λ r, r.1 = id) (reservations (db w))).*2))).
Proof.
  split.
  - unfold PassengersRepository.get_reservations. eff_unfold. cbn [db clock calls].
    by destruct (head (filter (λ row, PassengersRepository.has_id id row = true)
                              (passengers (db w)))).
  - apply get_reservations_cases.
Qed.

End WriteFacts.

(** * Further properties of the handlers *)

(** The five ways the shared check of the protected handlers can run:
    the claims have no email; no row resolves; the resolved row has no
    id column; its id is another one; or the check passes and the rest
    of the handler runs. *)
Lemma guarded_cases (decoded_token : Dict) (id : Z) (rest : option Dict → Eff Response)
    (s : Store) (now : string) :
  (decoded_token !! "email" = None
   ∧ run (guarded decoded_token id rest) s now = (inl (KeyError "email"), mkWorld s now []))
  ∨ (∃ e,
       decoded_token !! "email" = Some e
       ∧ PassengersRepository.first_by_email e (passengers s) = None
       ∧ run (guarded decoded_token id rest) s now =
           (inr not_found, mkWorld s now [CallGetByEmail e]))
  ∨ (∃ e p,
       decoded_token !! "email" = Some e
       ∧ PassengersRepository.first_by_email e (passengers s) = Some p
       ∧ p !! "id" = None
       ∧ run (guarded decoded_token id rest) s now =
           (inl (KeyError "id"), mkWorld s now [CallGetByEmail e]))
  ∨ (∃ e p passenger_id,
       decoded_token !! "email" = Some e
       ∧ PassengersRepository.first_by_email e (passengers s) = Some p
       ∧ p !! "id" = Some passenger_id ∧ passenger_id ≠ VInt id
       ∧ run (guarded decoded_token id rest) s now =
           (inr forbidden, mkWorld s now [CallGetByEmail e]))
  ∨ (∃ e p,
       decoded_token !! "email" = Some e
       ∧ PassengersRepository.first_by_email e (passengers s) = Some p
       ∧ p !! "id" = Some (VInt id)
       ∧ run (guarded decoded_token id rest) s now =
           rest (Some p) (mkWorld s now [CallGetByEmail e])).
Proof.
  unfold run. rewrite guarded_run. unfold guard_outcome. cbn [db clock calls].
  destruct (decoded_token !! "email") as [e|] eqn:Hemail; [|by left].
  right.
  destruct (PassengersRepository.first_by_email e (passengers s)) as [p|] eqn:Hp.
  2:{ left. by exists e. }
  right.
  destruct (p !! "id") as [pid|] eqn:Hid.
  2:{ left. by exists e, p. }
  right.
  destruct (decide (pid = VInt id)) as [->|Hne].
  - right. rewrite bool_decide_eq_true_2 by done. by exists e, p.
  - left. rewrite bool_decide_eq_false_2 by done. by exists e, p, pid.
Qed.

(** X10: when [GET /passengers/{id}] answers 200, the data is a row of
    the table, namely the first one with the email of the claims, and
    that row has the id of the path: the handler never hands out a row
    with another id or another email.  Nothing was written. *)
Theorem details_success_is_own_row (decoded_token : Dict) (id : Z) (s : Store)
    (now : string) (r : Response) (w' : World) :
  run (get_passenger_details decoded_token id) s now = (inr r, w') →
  status_of r = HTTP_200_OK →
  ∃ e p,
    decoded_token !! "email" = Some e
    ∧ PassengersRepository.first_by_email e (passengers s) = Some p
    ∧ p ∈ passengers s ∧ p !! "email" = Some e ∧ p !! "id" = Some (VInt id)
    ∧ r = JSONResponse (SuccessResponse (DataRow p)) HTTP_200_OK
    ∧ w' = mkWorld s now [CallGetByEmail e].
Proof.
  change (get_passenger_details decoded_token id)
    with (guarded decoded_token id
            (λ passenger,
               mret (JSONResponse (SuccessResponse (DataRow (default ∅ passenger)))
                                  HTTP_200_OK))).
  destruct (guarded_cases decoded_token id
              (λ passenger,
                 mret (JSONResponse (SuccessResponse (DataRow (default ∅ passenger)))
                                    HTTP_200_OK)) s now)
    as [(_ & ->)|[(e & _ & _ & ->)|[(e & p & _ & _ & _ & ->)
       |[(e & p & pid & _ & _ & _ & _ & ->)|(e & p & He & Hp & Hid & ->)]]]];
    try discriminate; try (intros [= <- <-]; discriminate).
  cbn. intros [= <- <-] _.
  destruct (first_by_email_Some _ _ _ Hp) as [Hmail Hin].
  by exists e, p.
Qed.

(** X11: once the ownership check has passed, listing the reservations
    cannot fail for a missing passenger: [GET
    /passengers/{id}/reservations] never raises [DoesNotExist], and a
    200 answer holds exactly the reservations that belong to the path
    id, in table order.  Nothing is written. *)
Theorem reservations_of_owner (decoded_token : Dict) (id : Z) (s : Store) (now : string) :
  (run (get_passenger_reservations id decoded_token) s now).1 ≠ inl DoesNotExist
  ∧ db (run (get_passenger_reservations id decoded_token) s now).2 = s
  ∧ ∀ r, (run (get_passenger_reservations id decoded_token) s now).1 = inr r →
         status_of r = HTTP_200_OK →
         owner_resolved s decoded_token id
         ∧ r = JSONResponse
                 (SuccessResponse
                    (DataRows ((filter (λ x, x.1 = id) (reservations s)).*2)))
                 HTTP_200_OK.
Proof.
  change (get_passenger_reservations id decoded_token)
    with (guarded decoded_token id
            (λ _, reservations ← PassengersRepository.get_reservations id;
                  mret (JSONResponse (SuccessResponse (DataRows reservations))
                                     HTTP_200_OK))).
  destruct (guarded_cases decoded_token id
              (λ _, reservations ← PassengersRepository.get_reservations id;
                    mret (JSONResponse (SuccessResponse (DataRows reservations))
                                       HTTP_200_OK)) s now)
    as [(_ & ->)|[(e & _ & _ & ->)|[(e & p & _ & _ & _ & ->)
       |[(e & p & pid & _ & _ & _ & _ & ->)|(e & p & He & Hp & Hid & ->)]]]];
    try (split_and!; [done|done|]; intros r [= <-]; discriminate);
    try (split_and!; [done|done|]; discriminate).
  rewrite eff_bind_unfold.
  destruct (get_reservations_cases id (mkWorld s now [CallGetByEmail e]))
    as [Hdb [[_ Hnone]|[_ Hsome]]].
  { destruct (first_by_email_Some _ _ _ Hp) as [_ Hin].
    rewrite Forall_forall in Hnone. by destruct (Hnone p Hin). }
  destruct (PassengersRepository.get_reservations id (mkWorld s now [CallGetByEmail e]))
    as [[exn|rows] w1]; [discriminate|].
  cbn in Hsome, Hdb. injection Hsome as ->. cbn. split_and!; [done|done|].
  intros r [= <-] _. split; [by exists e, p|done].
Qed.


Section HandlerMore.

Variable integrity : Store → bool.
Variable column_error : Dict → option Exn.
Variable model_create : Store → Dict → Exn + (Store * Value).
Variables AlphaStr EmailStr PasswordStr : Value → option string.
Variable int_field : Value → option Z.
Variable jwt_encode : Dict → option Token.

Local Abbreviation validate' := (validate AlphaStr EmailStr PasswordStr int_field).
Local Abbreviation protected' :=
  (protected integrity column_error AlphaStr EmailStr PasswordStr int_field jwt_encode).
Local Abbreviation accepted' := (accepted AlphaStr EmailStr PasswordStr int_field).
Local Abbreviation proceed' := (proceed integrity column_error jwt_encode).
Local Abbreviation issuing' :=
  (issuing integrity column_error model_create AlphaStr EmailStr PasswordStr int_field
     jwt_encode).
Local Abbreviation create_passenger' :=
  (create_passenger model_create AlphaStr EmailStr PasswordStr int_field jwt_encode).
Local Abbreviation update_passenger' :=
  (update_passenger integrity column_error AlphaStr EmailStr PasswordStr int_field
     jwt_encode).
Local Abbreviation looked_up s now e := (mkWorld s now [CallGetByEmail e]).

Set Default Proof Using "Type".

(** The six ways a protected handler can run: the body is refused; the
    claims have no email; no row resolves; the resolved row has no id
    column; its id is another one; or the check passes and the
    operation proper runs. *)
Lemma protected_outcome (op : Protected) (decoded_token : Dict) (id : Z) (s : Store)
    (now : string) :
  (∃ errors,
     accepted' op = inl errors
     ∧ run (protected' op decoded_token id) s now =
         (inr (JSONResponse (ValidationErrorResponse errors) HTTP_400_BAD_REQUEST),
          mkWorld s now []))
  ∨ (∃ o,
       accepted' op = inr o ∧ decoded_token !! "email" = None
       ∧ run (protected' op decoded_token id) s now =
           (inl (KeyError "email"), mkWorld s now []))
  ∨ (∃ o e,
       accepted' op = inr o ∧ decoded_token !! "email" = Some e
       ∧ PassengersRepository.first_by_email e (passengers s) = None
       ∧ run (protected' op decoded_token id) s now = (inr not_found, looked_up s now e))
  ∨ (∃ o e p,
       accepted' op = inr o ∧ decoded_token !! "email" = Some e
       ∧ PassengersRepository.first_by_email e (passengers s) = Some p
       ∧ p !! "id" = None
       ∧ run (protected' op decoded_token id) s now =
           (inl (KeyError "id"), looked_up s now e))
  ∨ (∃ o e p passenger_id,
       accepted' op = inr o ∧ decoded_token !! "email" = Some e
       ∧ PassengersRepository.first_by_email e (passengers s) = Some p
       ∧ p !! "id" = Some passenger_id ∧ passenger_id ≠ VInt id
       ∧ run (protected' op decoded_token id) s now = (inr forbidden, looked_up s now e))
  ∨ (∃ o e p,
       accepted' op = inr o ∧ decoded_token !! "email" = Some e
       ∧ PassengersRepository.first_by_email e (passengers s) = Some p
       ∧ p !! "id" = Some (VInt id)
       ∧ run (protected' op decoded_token id) s now =
           proceed' o id (Some p) (looked_up s now e)).
Proof.
  unfold run. rewrite protected_run.
  destruct (accepted' op) as [errors|o] eqn:Ho.
  { left. by exists errors. }
  right. rewrite guarded_run. unfold guard_outcome. cbn [db clock calls].
  destruct (decoded_token !! "email") as [e|] eqn:Hemail.
  2:{ left. by exists o. }
  right.
  destruct (PassengersRepository.first_by_email e (passengers s)) as [p|] eqn:Hp.
  2:{ left. by exists o, e. }
  right.
  destruct (p !! "id") as [pid|] eqn:Hid.
  2:{ left. by exists o, e, p. }
  right.
  destruct (decide (pid = VInt id)) as [->|Hne].
  - right. rewrite bool_decide_eq_true_2 by done. by exists o, e, p.
  - left. rewrite bool_decide_eq_false_2 by done. by exists o, e, p, pid.
Qed.

Lemma validate_missing (request : Dict) (k : string) :
  k ∈ schema_fields → request !! k = None →
  ∃ errors, validate' request = inl errors ∧ k ∈ errors.
Proof.
  intros Hk Hmissing. unfold schema_fields in Hk.
  unfold validate, field_error, required.
  repeat (apply elem_of_cons in Hk as [->|Hk]);
    [| | | |by apply elem_of_nil in Hk];
    rewrite Hmissing; cbn;
    repeat match goal with
           | |- context [?m !! ?j ≫= ?f] => destruct (m !! j ≫= f)
           end;
    eexists; (split; [reflexivity|]); solve [repeat constructor].
Qed.

(** X7: a request body that lacks one of the four required fields is
    refused by [POST /passengers/] and by [PUT /passengers/{id}] alike:
    the answer is 400, the missing field is among the reported ones, no
    repository method is called and the database is as before. *)
Theorem missing_field_rejected (op : Issuing) (k : string) (s : Store) (now : string) :
  k ∈ schema_fields →
  request_of op !! k = None →
  ∃ errors,
    run (issuing' op) s now =
      (inr (JSONResponse (ValidationErrorResponse errors) HTTP_400_BAD_REQUEST),
       mkWorld s now [])
    ∧ k ∈ errors.
Proof.
  intros Hk Hmissing.
  destruct (validate_missing (request_of op) k Hk Hmissing) as (errors & Hv & Hin).
  exists errors. split; [|done].
  destruct op as [request|decoded_token id request]; cbn in *; unfold run.
  - unfold create_passenger. by rewrite Hv.
  - unfold update_passenger. by rewrite Hv.
Qed.

(** X8: what [POST /passengers/] does to the database, by its outcome.
    With 400 the database is as before: the body was refused, or the
    insert raised [IntegrityError].  With 201 or 500 the row has been
    inserted, and 500 means precisely that the token could not be
    generated afterwards: the insert is not undone.  Any other
    exception of the insert (a [DataError] for a value that its column
    cannot hold) is not caught: it escapes the handler, the database
    being as before. *)
Theorem post_outcomes (request : Dict) (s : Store) (now : string) :
  (∃ r,
     (run (create_passenger' request) s now).1 = inr r
     ∧ ((status_of r = HTTP_400_BAD_REQUEST
         ∧ db (run (create_passenger' request) s now).2 = s
         ∧ ((∃ errors, validate' request = inl errors)
            ∨ (∃ body, validate' request = inr body
                       ∧ model_create s (model_dump body) = inl IntegrityError)))
        ∨ (∃ body s' new_id,
             validate' request = inr body
             ∧ model_create s (model_dump body) = inr (s', new_id)
             ∧ db (run (create_passenger' request) s now).2 = s'
             ∧ calls (run (create_passenger' request) s now).2
               = [CallCreate (model_dump body)]
             ∧ ((status_of r = HTTP_201_CREATED ∧ is_Some (jwt_encode (model_dump body)))
                ∨ (status_of r = HTTP_500_INTERNAL_SERVER_ERROR
                   ∧ jwt_encode (model_dump body) = None)))))
  ∨ (∃ exn body,
       (run (create_passenger' request) s now).1 = inl exn
       ∧ exn ≠ IntegrityError
       ∧ validate' request = inr body
       ∧ model_create s (model_dump body) = inl exn
       ∧ db (run (create_passenger' request) s now).2 = s).
Proof.
  unfold run, create_passenger.
  destruct (validate' request) as [errors|body] eqn:Hvalid.
  { left. eexists. split; [reflexivity|]. left. split_and!; [done..|]. left.
    by exists errors. }
  unfold PassengersRepository.create. eff_unfold. cbn [db clock calls].
  destruct (model_create s (model_dump body)) as [exn|[s' new_id]] eqn:Hcreate.
  - destruct exn; try (right; eexists _, body; by split_and!).
    left. eexists. split; [reflexivity|]. left. split_and!; [done..|]. right.
    by exists body.
  - left. destruct (jwt_encode (model_dump body)) as [token|] eqn:Htoken;
      (eexists; split; [reflexivity|]); right; exists body, s', new_id;
      split_and!; try done; [left|right]; by eauto.
Qed.

(** X9: when [PUT /passengers/{id}] answers 500, the caller owns the
    row, the body was valid, the update has been written to the table
    and stays there; only the token could not be generated. *)
Theorem put_server_error_after_write (decoded_token : Dict) (id : Z) (request : Dict)
    (s : Store) (now : string) (r : Response) (w' : World) :
  run (update_passenger' decoded_token id request) s now = (inr r, w') →
  status_of r = HTTP_500_INTERNAL_SERVER_ERROR →
  ∃ body,
    validate' request = inr body
    ∧ jwt_encode (model_dump body) = None
    ∧ owner_resolved s decoded_token id
    ∧ db w' = PassengersRepository.update_statement id (model_dump body) now s
    ∧ r = JSONResponse (BadResponse "Possible error generating token")
                       HTTP_500_INTERNAL_SERVER_ERROR.
Proof.
  change (update_passenger' decoded_token id request)
    with (protected' (Update request) decoded_token id).
  destruct (protected_outcome (Update request) decoded_token id s now)
    as [(errors & _ & ->)|[(o & _ & _ & ->)|[(o & e & _ & _ & _ & ->)
       |[(o & e & p & _ & _ & _ & _ & ->)|[(o & e & p & pid & _ & _ & _ & _ & _ & ->)
       |(o & e & p & Ho & He & Hp & Hid & ->)]]]]];
    try (intros [= <- <-]; discriminate); try discriminate.
  cbn [accepted] in Ho.
  destruct (validate' request) as [|body] eqn:Hvalid; [discriminate|].
  injection Ho as <-. cbn [proceed]. rewrite eff_bind_unfold, update_run.
  cbn [db clock calls].
  destruct (column_error _); [discriminate|].
  destruct (integrity _); [|discriminate].
  destruct (jwt_encode (model_dump body)) as [token|] eqn:Htoken.
  { intros [= <- <-]. discriminate. }
  intros [= <- <-] _. exists body. split_and!; try done. by exists e, p.
Qed.

(** What the operation proper does to the database. *)
Lemma proceed_db (o : Operation) (id : Z) (passenger : option Dict) (w : World) :
  db (proceed' o id passenger w).2 = db w
  ∨ (∃ body, o = DoUpdate body
             ∧ db (proceed' o id passenger w).2 =
                 PassengersRepository.update_statement id (model_dump body) (clock w) (db w))
  ∨ (o = DoDelete
     ∧ db (proceed' o id passenger w).2 = PassengersRepository.delete_statement id (db w)).
Proof.
  destruct o as [|body| |]; cbn [proceed].
  - by left.
  - rewrite eff_bind_unfold, update_run.
    destruct (column_error _); [by left|].
    destruct (integrity _); [|by left].
    right. left. exists body. split; [done|]. by destruct (jwt_encode _).
  - rewrite eff_bind_unfold, delete_run.
    destruct (integrity _); [|by left]. right. by right.
  - left. rewrite eff_bind_unfold.
    pose proof (get_reservations_cases id w) as [Hdb _].
    by destruct (PassengersRepository.get_reservations id w) as [[exn|rows] w1].
Qed.

(** A protected handler leaves the database alone, or the caller owns
    the row and everything but the rows with the path id is as before. *)
Lemma protected_db (op : Protected) (decoded_token : Dict) (id : Z) (s : Store)
    (now : string) :
  db (run (protected' op decoded_token id) s now).2 = s
  ∨ (mutating op = true
     ∧ owner_resolved s decoded_token id
     ∧ PassengersRepository.others id
         (passengers (db (run (protected' op decoded_token id) s now).2))
       = PassengersRepository.others id (passengers s)
     ∧ reservations (db (run (protected' op decoded_token id) s now).2) = reservations s).
Proof.
  destruct (protected_outcome op decoded_token id s now)
    as [(errors & _ & ->)|[(o & _ & _ & ->)|[(o & e & _ & _ & _ & ->)
       |[(o & e & p & _ & _ & _ & _ & ->)|[(o & e & p & pid & _ & _ & _ & _ & _ & ->)
       |(o & e & p & Ho & He & Hp & Hid & ->)]]]]];
    try by left.
  destruct (proceed_db o id (Some p) (looked_up s now e))
    as [Hsame|[(body & -> & Hdb)|[-> Hdb]]]; [by left| |];
    right; rewrite Hdb; cbn [db clock];
    (split; [by destruct op; simplify_eq/=; repeat case_match; simplify_eq|]);
    (split; [by exists e, p|]).
  - unfold PassengersRepository.update_statement. cbn [passengers reservations].
    rewrite others_update by (by rewrite update_columns_id). done.
  - unfold PassengersRepository.delete_statement. cbn [passengers reservations].
    by rewrite others_idempotent.
Qed.

(** X12: the two reading handlers never write: for every token, id and
    table, [GET /passengers/{id}] and [GET /passengers/{id}/reservations]
    leave the database as it was and make no writing call, whatever
    they answer. *)
Theorem reading_handlers_do_not_write (op : Protected) (decoded_token : Dict) (id : Z)
    (s : Store) (now : string) :
  mutating op = false →
  db (run (protected' op decoded_token id) s now).2 = s
  ∧ Forall (λ c, is_mutation c = false)
           (calls (run (protected' op decoded_token id) s now).2).
Proof.
  intros Hread.
  destruct (protected_cases integrity column_error AlphaStr EmailStr PasswordStr int_field
              jwt_encode op decoded_token id s now)
    as [(e & p & o & He & Hp & Hid & Ho & Hrun)|(_ & Hdb & Hcalls)].
  - rewrite Hrun. destruct op; try discriminate; cbn in Ho; injection Ho as <-.
    + split; [done|]. by repeat constructor.
    + cbn [proceed]. rewrite eff_bind_unfold.
      pose proof (get_reservations_cases id (looked_up s now e)) as [Hdb _].
      unfold PassengersRepository.get_reservations in *. eff_unfold. cbn in *.
      destruct (head _); cbn; split; try done; by repeat constructor.
  - split; [done|]. eapply Forall_impl; [exact Hcalls|]. by intros c [? _].
Qed.

(** X13: a protected handler answers only with the status codes listed
    for it.  An exception escapes it only as a [KeyError], for claims
    without an email or a row without an id column, or, from the two
    writing handlers, as what the write itself raised: the
    [IntegrityError] of a refused statement or, for [PUT], the error of
    a column that cannot hold a value of the body (a [DataError] for an
    age out of range). *)
Theorem answers_within_statuses (op : Protected) (decoded_token : Dict) (id : Z)
    (s : Store) (now : string) :
  match (run (protected' op decoded_token id) s now).1 with
  | inr r => status_of r ∈ statuses op
  | inl exn =>
      exn = KeyError "email" ∨ exn = KeyError "id"
      ∨ (mutating op = true
         ∧ (exn = IntegrityError
            ∨ ∃ request body,
                op = Update request
                ∧ validate' request = inr body
                ∧ column_error (PassengersRepository.update_columns (model_dump body) now)
                  = Some exn))
  end.
Proof.
  destruct (protected_outcome op decoded_token id s now)
    as [(errors & Ho & ->)|[(o & _ & _ & ->)|[(o & e & _ & _ & _ & ->)
       |[(o & e & p & _ & _ & _ & _ & ->)|[(o & e & p & pid & _ & _ & _ & _ & _ & ->)
       |(o & e & p & Ho & He & Hp & Hid & ->)]]]]]; cbn [fst].
  - destruct op; cbn in Ho; try discriminate. cbn. solve [repeat constructor].
  - by left.
  - destruct op; cbn; solve [repeat constructor].
  - right. by left.
  - destruct op; cbn; solve [repeat constructor].
  - destruct op as [|request| |]; cbn in Ho;
      [|destruct (validate' request) as [|body] eqn:Hvalid; [discriminate|]| |];
      injection Ho as <-; cbn [proceed].
    + cbn. solve [repeat constructor].
    + rewrite eff_bind_unfold, update_run. cbn [db clock calls].
      destruct (column_error _) as [exn|] eqn:Hcolumns.
      { cbn. do 2 right. split; [done|]. right. by exists request, body. }
      destruct (integrity _); [destruct (jwt_encode _)|]; cbn;
        [solve [repeat constructor]..|].
      do 2 right. split; [done|]. by left.
    + rewrite eff_bind_unfold, delete_run.
      destruct (integrity _); cbn; [solve [repeat constructor]|].
      do 2 right. split; [done|]. by left.
    + rewrite eff_bind_unfold.
      destruct (get_reservations_cases id (looked_up s now e)) as [_ [[_ Hnone]|[_ Hsome]]].
      { destruct (first_by_email_Some _ _ _ Hp) as [_ Hin].
        rewrite Forall_forall in Hnone. by destruct (Hnone p Hin). }
      destruct (PassengersRepository.get_reservations id (looked_up s now e))
        as [[exn|rows] w1]; [discriminate|]. cbn. solve [repeat constructor].
Qed.

(** X14: [PUT /passengers/{id}] never changes the id of a row, nor the
    number of rows: whatever the request body carries, the id column of
    the table reads the same, row by row, before and after. *)
Theorem put_keeps_ids (decoded_token : Dict) (id : Z) (request : Dict) (s : Store)
    (now : string) :
  ids (passengers (db (run (update_passenger' decoded_token id request) s now).2))
  = ids (passengers s).
Proof.
  change (update_passenger' decoded_token id request)
    with (protected' (Update request) decoded_token id).
  destruct (protected_outcome (Update request) decoded_token id s now)
    as [(errors & _ & ->)|[(o & _ & _ & ->)|[(o & e & _ & _ & _ & ->)
       |[(o & e & p & _ & _ & _ & _ & ->)|[(o & e & p & pid & _ & _ & _ & _ & _ & ->)
       |(o & e & p & Ho & He & Hp & Hid & ->)]]]]]; try done.
  cbn in Ho. destruct (validate' request) as [|body]; [discriminate|]. injection Ho as <-.
  destruct (proceed_db (DoUpdate body) id (Some p) (looked_up s now e))
    as [->|[(body' & [= <-] & ->)|[? _]]]; [done| |done].
  cbn [db clock]. by apply update_statement_ids.
Qed.

Lemma model_dump_keys (body : PassengerRequestSchema) (k : string) :
  is_Some (model_dump body !! k) ↔ k ∈ schema_fields.
Proof.
  unfold model_dump, schema_fields. rewrite !lookup_insert_is_Some, lookup_empty.
  rewrite !elem_of_cons, elem_of_nil. split.
  - intros [->|[_ [->|[_ [->|[_ [->|[_ []%is_Some_None]]]]]]]]; tauto.
  - intros [->|[->|[->|[->|[]]]]].
    + by left.
    + right. split; [done|]. by left.
    + right. split; [done|]. right. split; [done|]. by left.
    + do 3 (right; split; [done|]). by left.
Qed.

(** The calls a token-issuing handler makes: none, the lookup by email
    alone, or a single write whose data is the dumped validated body. *)
Lemma issuing_calls (op : Issuing) (s : Store) (now : string) :
  Forall (λ c, is_mutation c = false) (calls (run (issuing' op) s now).2)
  ∨ ∃ body,
      validate' (request_of op) = inr body
      ∧ (calls (run (issuing' op) s now).2 = [CallCreate (model_dump body)]
         ∨ ∃ e id, calls (run (issuing' op) s now).2 =
                     [CallGetByEmail e; CallUpdate id (model_dump body)]).
Proof.
  destruct op as [request|decoded_token id request]; cbn [issuing request_of].
  - unfold run, create_passenger.
    destruct (validate' request) as [errors|body] eqn:Hvalid; [left; constructor|].
    right. exists body. split; [done|]. left.
    unfold PassengersRepository.create. eff_unfold. cbn [db clock calls].
    destruct (model_create s (model_dump body)) as [exn|[s' new_id]];
      [by destruct exn|].
    by destruct (jwt_encode (model_dump body)).
  - change (update_passenger' decoded_token id request)
      with (protected' (Update request) decoded_token id).
    destruct (protected_outcome (Update request) decoded_token id s now)
      as [(errors & _ & ->)|[(o & _ & _ & ->)|[(o & e & _ & _ & _ & ->)
         |[(o & e & p & _ & _ & _ & _ & ->)|[(o & e & p & pid & _ & _ & _ & _ & _ & ->)
         |(o & e & p & Ho & He & Hp & Hid & ->)]]]]];
      try (left; by repeat constructor).
    cbn in Ho. destruct (validate' request) as [|body]; [discriminate|]. injection Ho as <-.
    right. exists body. split; [done|]. right. exists e, id.
    cbn [proceed]. rewrite eff_bind_unfold, update_run. cbn [db clock calls].
    destruct (column_error _); [done|].
    destruct (integrity _); [|done]. by destruct (jwt_encode (model_dump body)).
Qed.

(** X15: what [POST] and [PUT] hand to the repository is the dumped
    validated body and nothing else: the data of every [create] or
    [update] call has exactly the four schema fields as its keys, so a
    key such as [id] or [updated_at] in the request never reaches a
    row. *)
Theorem writes_carry_schema_fields_only (op : Issuing) (s : Store) (now : string)
    (c : RepoCall) (data : Dict) :
  c ∈ calls (run (issuing' op) s now).2 →
  c = CallCreate data ∨ (∃ id, c = CallUpdate id data) →
  (∃ body, validate' (request_of op) = inr body ∧ data = model_dump body)
  ∧ (∀ k, is_Some (data !! k) ↔ k ∈ schema_fields)
  ∧ data !! "id" = None.
Proof.
  intros Hin Hwrite.
  destruct (issuing_calls op s now) as [Hreads|(body & Hvalid & Hcalls)].
  - rewrite Forall_forall in Hreads. specialize (Hreads c Hin).
    by destruct Hwrite as [->|[id ->]].
  - assert (data = model_dump body) as ->.
    { destruct Hcalls as [Hcalls|(e & id & Hcalls)]; rewrite Hcalls in Hin.
      - apply list_elem_of_singleton in Hin as ->.
        by destruct Hwrite as [[= ->]|[? [=]]].
      - apply elem_of_cons in Hin as [->|Hin].
        + by destruct Hwrite as [[=]|[? [=]]].
        + apply list_elem_of_singleton in Hin as ->.
          by destruct Hwrite as [[=]|[? [= _ ->]]]. }
    split_and!; [by exists body|apply model_dump_keys|reflexivity].
Qed.

(** In a table without a row of the id, no token passes the ownership
    check for that id. *)
Lemma absent_rejected (id : Z) (s : Store) :
  absent id s →
  ∀ (op : Protected) (other_token : Dict) (later : string),
    ¬ owner_resolved s other_token id
    ∧ db (run (protected' op other_token id) s later).2 = s
    ∧ ∀ r', (run (protected' op other_token id) s later).1 = inr r' →
            status_of r' ∈ [HTTP_400_BAD_REQUEST; HTTP_403_FORBIDDEN; HTTP_404_NOT_FOUND].
Proof.
  intros Hgone op other_token later.
  assert (Hnot : ¬ owner_resolved s other_token id).
  { intros (e & p & _ & Hp & Hid). apply first_by_email_Some in Hp as [_ Hin].
    unfold absent in Hgone. rewrite Forall_forall in Hgone. by destruct (Hgone p Hin). }
  split; [done|].
  destruct (protected_outcome op other_token id s later)
    as [(errors & _ & ->)|[(o & _ & _ & ->)|[(o & e & _ & _ & _ & ->)
       |[(o & e & p & _ & _ & _ & _ & ->)|[(o & e & p & pid & _ & _ & _ & _ & _ & ->)
       |(o & e & p & Ho & He & Hp & Hid & _)]]]]]; cbn [fst snd db];
    try (split; [done|]; intros r' [= <-]; cbn; solve [repeat constructor]);
    try (split; [done|]; discriminate).
  destruct Hnot. by exists e, p.
Qed.

(** A protected handler does not bring a missing id into the table. *)
Lemma protected_keeps_absent (gone : Z) (op : Protected) (decoded_token : Dict) (id : Z)
    (s : Store) (now : string) :
  absent gone s → absent gone (db (run (protected' op decoded_token id) s now).2).
Proof.
  intros Hgone.
  destruct (protected_db op decoded_token id s now)
    as [->|(_ & (e & p & _ & Hp & Hid) & Hothers & _)]; [done|].
  unfold absent in *. rewrite Forall_forall in *. intros row Hin Hrow.
  destruct (decide (gone = id)) as [->|Hne].
  - apply first_by_email_Some in Hp as [_ Hp]. by destruct (Hgone p Hp).
  - assert (Hother : row ∈ PassengersRepository.others id
                             (passengers (db (run (protected' op decoded_token id) s now).2))).
    { apply list_elem_of_filter. split; [|done]. apply has_id_false. congruence. }
    rewrite Hothers in Hother. apply list_elem_of_filter in Hother as [_ Hother].
    by destruct (Hgone row Hother).
Qed.

(** X16: once [DELETE /passengers/{id}] has answered 204, no row of the
    table has that id, and it stays so through every sequence of
    requests that contains no [POST /passengers/]: after any such
    sequence no token passes the ownership check for that id, and every
    protected operation on it leaves the database alone and answers 400,
    403 or 404. *)
Theorem deleted_id_unreachable (JWTBearerDependencie : Authorization → Response + Dict)
    (decoded_token : Dict) (id : Z) (s : Store) (now : string) (r : Response) (w' : World) :
  run (delete_passenger integrity decoded_token id) s now = (inr r, w') →
  status_of r = HTTP_204_NO_CONTENT →
  absent id (db w')
  ∧ ∀ requests : list Request,
      Forall (λ q : Request, inserts q.1.2 = false) requests →
      absent id
        (serve integrity column_error model_create AlphaStr EmailStr PasswordStr int_field
           jwt_encode JWTBearerDependencie requests (db w'))
      ∧ ∀ (op : Protected) (other_token : Dict) (later : string),
          ¬ owner_resolved
              (serve integrity column_error model_create AlphaStr EmailStr PasswordStr
                 int_field jwt_encode JWTBearerDependencie requests (db w'))
              other_token id
          ∧ db (run (protected' op other_token id)
                    (serve integrity column_error model_create AlphaStr EmailStr PasswordStr
                       int_field jwt_encode JWTBearerDependencie requests (db w'))
                    later).2
            = serve integrity column_error model_create AlphaStr EmailStr PasswordStr
                int_field jwt_encode JWTBearerDependencie requests (db w')
          ∧ ∀ r',
              (run (protected' op other_token id)
                   (serve integrity column_error model_create AlphaStr EmailStr PasswordStr
                      int_field jwt_encode JWTBearerDependencie requests (db w'))
                   later).1 = inr r' →
              status_of r' ∈ [HTTP_400_BAD_REQUEST; HTTP_403_FORBIDDEN; HTTP_404_NOT_FOUND].
Proof.
  change (delete_passenger integrity decoded_token id)
    with (protected' Delete decoded_token id).
  intros Hrun Hstatus.
  assert (Hgone : absent id (db w')).
  { destruct (protected_outcome Delete decoded_token id s now)
      as [(errors & Ho & _)|[(o & _ & _ & Hr)|[(o & e & _ & _ & _ & Hr)
         |[(o & e & p & _ & _ & _ & _ & Hr)|[(o & e & p & pid & _ & _ & _ & _ & _ & Hr)
         |(o & e & p & Ho & He & Hp & Hid & Hr)]]]]];
      try discriminate; rewrite Hr in Hrun; try discriminate;
      try (injection Hrun as <- <-; discriminate).
    injection Ho as <-. cbn [proceed] in Hrun.
    rewrite eff_bind_unfold, delete_run in Hrun. cbn [db clock calls] in Hrun.
    destruct (integrity _); [|discriminate].
    injection Hrun as _ <-. apply others_no_id. }
  split; [done|]. intros requests Hno_post.
  assert (Hlater : absent id
            (serve integrity column_error model_create AlphaStr EmailStr PasswordStr
               int_field jwt_encode JWTBearerDependencie requests (db w'))).
  { revert Hgone. generalize (db w'). clear Hrun.
    induction Hno_post as [|[[authorization endpoint] clock_reading] requests Hq _ IH];
      intros s0 Hs0; [done|].
    unfold serve. cbn [foldl]. apply IH. cbn in Hq.
    destruct endpoint as [|i|request|i request|i|i]; try discriminate;
      cbn [route]; [done|..]; unfold depends;
      (destruct (JWTBearerDependencie authorization) as [rejection|claims]; [done|]).
    - by apply (protected_keeps_absent id Details).
    - by apply (protected_keeps_absent id (Update request)).
    - by apply (protected_keeps_absent id Delete).
    - by apply (protected_keeps_absent id Reservations). }
  split; [done|]. by apply absent_rejected.
Qed.

(** A 201 answer of [PUT]: the body was valid, the caller owns the row,
    and the table is the updated one. *)
Lemma put_created (decoded_token : Dict) (id : Z) (request : Dict) (s : Store)
    (now : string) (r : Response) (w' : World) :
  run (update_passenger' decoded_token id request) s now = (inr r, w') →
  status_of r = HTTP_201_CREATED →
  ∃ body e p,
    validate' request = inr body ∧ decoded_token !! "email" = Some e
    ∧ PassengersRepository.first_by_email e (passengers s) = Some p
    ∧ p !! "id" = Some (VInt id)
    ∧ db w' = PassengersRepository.update_statement id (model_dump body) now s.
Proof.
  change (update_passenger' decoded_token id request)
    with (protected' (Update request) decoded_token id).
  destruct (protected_outcome (Update request) decoded_token id s now)
    as [(errors & _ & ->)|[(o & _ & _ & ->)|[(o & e & _ & _ & _ & ->)
       |[(o & e & p & _ & _ & _ & _ & ->)|[(o & e & p & pid & _ & _ & _ & _ & _ & ->)
       |(o & e & p & Ho & He & Hp & Hid & ->)]]]]];
    try (intros [= <- <-]; discriminate); try discriminate.
  cbn [accepted] in Ho.
  destruct (validate' request) as [|body] eqn:Hvalid; [discriminate|].
  injection Ho as <-. cbn [proceed]. rewrite eff_bind_unfold, update_run.
  cbn [db clock calls].
  destruct (column_error _); [discriminate|].
  destruct (integrity _); [|discriminate].
  destruct (jwt_encode (model_dump body)) as [token|].
  - intros [= <- <-] _. by exists body, e, p.
  - intros [= <- <-]. discriminate.
Qed.

Lemma first_by_email_updated (id : Z) (columns : Dict) (e : Value) (rows : list Dict) :
  columns !! "email" = Some e →
  (∀ row, row ∈ rows → row !! "id" ≠ Some (VInt id) → row !! "email" ≠ Some e) →
  PassengersRepository.first_by_email e (PassengersRepository.update_row id columns <$> rows)
  = PassengersRepository.update_row id columns
      <$> head (filter (λ row, PassengersRepository.has_id id row = true) rows).
Proof.
  intros Hcolumns. unfold PassengersRepository.first_by_email.
  induction rows as [|row rows IH]; intros Hfree; [done|].
  rewrite fmap_cons.
  destruct (PassengersRepository.has_id id row) eqn:Hrow.
  - rewrite (filter_cons_True (λ r, PassengersRepository.has_id id r = true)) by done.
    rewrite filter_cons_True; [done|].
    apply has_email_true. unfold PassengersRepository.update_row. rewrite Hrow.
    by apply lookup_union_Some_l.
  - rewrite (filter_cons_False (λ r, PassengersRepository.has_id id r = true))
      by (by rewrite Hrow).
    rewrite update_row_other by done.
    rewrite filter_cons_False.
    + apply IH. intros r Hr. apply Hfree. by right.
    + rewrite (proj2 (has_email_false e row)); [done|].
      apply Hfree; [by left|]. by apply has_id_false.
Qed.

Lemma first_by_email_vacated (id : Z) (columns : Dict) (e e' : Value) (rows : list Dict) :
  columns !! "email" = Some e' → e ≠ e' →
  (∀ row, row ∈ rows → row !! "email" = Some e → row !! "id" = Some (VInt id)) →
  PassengersRepository.first_by_email e (PassengersRepository.update_row id columns <$> rows)
  = None.
Proof.
  intros Hcolumns Hne Honly. apply first_by_email_None, Forall_fmap, Forall_forall.
  intros row Hin. cbn. unfold PassengersRepository.update_row.
  destruct (PassengersRepository.has_id id row) eqn:Hrow.
  - rewrite (lookup_union_Some_l _ _ _ _ Hcolumns). congruence.
  - intros Hmail. apply has_id_false in Hrow. by apply Hrow, Honly.
Qed.

(** X17: after [PUT /passengers/{id}] has answered 201, the claims that
    the new token carries (the dumped body) read the updated row back:
    provided no other passenger already has the new email, [GET
    /passengers/{id}] with those claims answers 200 with a row that has
    the path id, every field of the body, and the clock reading of the
    update under [updated_at]. *)
Theorem updated_row_read_back (decoded_token : Dict) (id : Z) (request : Dict)
    (s : Store) (now later : string) (r : Response) (w' : World)
    (body : PassengerRequestSchema) :
  run (update_passenger' decoded_token id request) s now = (inr r, w') →
  status_of r = HTTP_201_CREATED →
  validate' request = inr body →
  (∀ row, row ∈ passengers s → row !! "id" ≠ Some (VInt id) →
          row !! "email" ≠ Some (VStr (email body))) →
  ∃ row,
    run (get_passenger_details (model_dump body) id) (db w') later =
      (inr (JSONResponse (SuccessResponse (DataRow row)) HTTP_200_OK),
       looked_up (db w') later (VStr (email body)))
    ∧ row !! "id" = Some (VInt id)
    ∧ row !! "updated_at" = Some (VStr now)
    ∧ ∀ k v, model_dump body !! k = Some v → row !! k = Some v.
Proof.
  intros Hrun Hstatus Hvalid Hfree.
  destruct (put_created _ _ _ _ _ _ _ Hrun Hstatus)
    as (body' & e & p & Hvalid' & He & Hp & Hid & Hdb).
  rewrite Hvalid in Hvalid'. injection Hvalid' as <-.
  set (columns := PassengersRepository.update_columns (model_dump body) now).
  assert (Hcolumns_id : columns !! "id" = None) by reflexivity.
  destruct (head (filter (λ row, PassengersRepository.has_id id row = true) (passengers s)))
    as [owner|] eqn:Howner.
  2:{ apply head_filter_None in Howner. rewrite Forall_forall in Howner.
      apply first_by_email_Some in Hp as [_ Hin].
      destruct (Howner p Hin). by apply has_id_true. }
  assert (Hfirst : PassengersRepository.first_by_email (VStr (email body))
                     (passengers (db w')) = Some (columns ∪ owner)).
  { rewrite Hdb. unfold PassengersRepository.update_statement. cbn [passengers].
    fold columns. rewrite first_by_email_updated by done. rewrite Howner. cbn.
    apply head_Some_elem_of in Howner.
    apply list_elem_of_filter in Howner as [Hown _].
    unfold PassengersRepository.update_row. by rewrite Hown. }
  apply head_Some_elem_of in Howner.
  apply list_elem_of_filter in Howner as [Hown%has_id_true _].
  assert (Hrow_id : (columns ∪ owner) !! "id" = Some (VInt id))
    by (by rewrite lookup_union_r).
  exists (columns ∪ owner). split_and!.
  - change (get_passenger_details (model_dump body) id)
      with (protected' Details (model_dump body) id).
    unfold run. rewrite protected_run. cbn [accepted]. rewrite guarded_run.
    unfold guard_outcome. cbn [db clock calls].
    change (model_dump body !! "email") with (Some (VStr (email body))). cbn match.
    rewrite Hfirst, Hrow_id. by rewrite bool_decide_eq_true_2.
  - done.
  - by apply lookup_union_Some_l.
  - intros k v Hk. apply lookup_union_Some_l. unfold columns.
    unfold PassengersRepository.update_columns. rewrite lookup_insert_ne; [done|].
    intros <-. discriminate.
Qed.

(** X18: a token issued before an email change goes stale.  After [PUT
    /passengers/{id}] has answered 201 with a body whose email differs
    from the one in the old claims, and provided every row with the old
    email was a row with the path id, the old claims resolve to no row
    any more: [GET /passengers/{id}] with them answers 404, for every
    id. *)
Theorem stale_token_after_email_change (decoded_token : Dict) (id other_id : Z)
    (request : Dict) (s : Store) (now later : string) (r : Response) (w' : World)
    (body : PassengerRequestSchema) (e : Value) :
  run (update_passenger' decoded_token id request) s now = (inr r, w') →
  status_of r = HTTP_201_CREATED →
  validate' request = inr body →
  decoded_token !! "email" = Some e →
  e ≠ VStr (email body) →
  (∀ row, row ∈ passengers s → row !! "email" = Some e → row !! "id" = Some (VInt id)) →
  run (get_passenger_details decoded_token other_id) (db w') later =
    (inr not_found, looked_up (db w') later e).
Proof.
  intros Hrun Hstatus Hvalid He Hne Honly.
  destruct (put_created _ _ _ _ _ _ _ Hrun Hstatus)
    as (body' & e' & p & Hvalid' & He' & Hp & Hid & Hdb).
  rewrite Hvalid in Hvalid'. injection Hvalid' as <-.
  change (get_passenger_details decoded_token other_id)
    with (protected' Details decoded_token other_id).
  unfold run. rewrite protected_run. cbn [accepted]. rewrite guarded_run.
  unfold guard_outcome. cbn [db clock calls]. rewrite He.
  rewrite Hdb at 1. unfold PassengersRepository.update_statement at 1. cbn [passengers].
  by rewrite (first_by_email_vacated id _ e (VStr (email body))).
Qed.

(** X19: through the routes other than [POST /passengers/], the database
    changes only for a caller whose [Authorization] header the bearer
    dependency accepted and whose claims resolve to the row with the
    path id; and then every row with another id, and every
    reservation, is as before. *)
Theorem route_changes_only_own_row (JWTBearerDependencie : Authorization → Response + Dict)
    (authorization : Authorization) (endpoint : Endpoint) (s : Store) (now : string) :
  inserts endpoint = false →
  db (run (route integrity column_error model_create AlphaStr EmailStr PasswordStr int_field
             jwt_encode JWTBearerDependencie authorization endpoint) s now).2 = s
  ∨ ∃ claims id,
      JWTBearerDependencie authorization = inr claims
      ∧ path_id endpoint = Some id
      ∧ owner_resolved s claims id
      ∧ PassengersRepository.others id
          (passengers (db (run (route integrity column_error model_create AlphaStr EmailStr
                                  PasswordStr int_field jwt_encode JWTBearerDependencie
                                  authorization endpoint) s now).2))
        = PassengersRepository.others id (passengers s)
      ∧ reservations (db (run (route integrity column_error model_create AlphaStr EmailStr
                                 PasswordStr int_field jwt_encode JWTBearerDependencie
                                 authorization endpoint) s now).2)
        = reservations s.
Proof.
  intros Hnot_post.
  assert (Hgated : ∀ op id,
            route integrity column_error model_create AlphaStr EmailStr PasswordStr int_field
              jwt_encode JWTBearerDependencie authorization endpoint
            = depends JWTBearerDependencie authorization (λ t, protected' op t id) →
            path_id endpoint = Some id →
            db (run (route integrity column_error model_create AlphaStr EmailStr PasswordStr
                       int_field jwt_encode JWTBearerDependencie authorization endpoint)
                    s now).2 = s
            ∨ ∃ claims id',
                JWTBearerDependencie authorization = inr claims
                ∧ path_id endpoint = Some id'
                ∧ owner_resolved s claims id'
                ∧ PassengersRepository.others id'
                    (passengers (db (run (route integrity column_error model_create AlphaStr
                                            EmailStr PasswordStr int_field jwt_encode
                                            JWTBearerDependencie authorization endpoint)
                                         s now).2))
                  = PassengersRepository.others id' (passengers s)
                ∧ reservations (db (run (route integrity column_error model_create AlphaStr
                                           EmailStr PasswordStr int_field jwt_encode
                                           JWTBearerDependencie authorization endpoint)
                                        s now).2)
                  = reservations s).
  { intros op id -> Hpath. unfold depends.
    destruct (JWTBearerDependencie authorization) as [rejection|claims]; [by left|].
    destruct (protected_db op claims id s now) as [Hsame|(_ & Hown & Hothers & Hres)];
      [by left|].
    right. by exists claims, id. }
  destruct endpoint as [|id|request|id request|id|id]; try discriminate.
  - by left.
  - by apply (Hgated Details id).
  - by apply (Hgated (Update request) id).
  - by apply (Hgated Delete id).
  - by apply (Hgated Reservations id).
Qed.

End HandlerMore.

(** ** The further properties on the sample data *)

(** X5: Ana's row is updated, then deleted. *)
Lemma delete_after_update_witness :
  PassengersRepository.delete_statement 1
    (PassengersRepository.update_statement 1 new_ana noon store)
  = mkStore [ben] (reservations store).
Proof.
  rewrite (delete_after_update 1 new_ana noon store); reflexivity.
Defined.

(** X7: a body without a password, sent to [POST] and to [PUT]. *)
Lemma missing_field_rejected_witness :
  (∃ errors,
     run (create_passenger append_row str_type str_type str_type int_type jwt
            (delete "password" new_ana)) store noon
     = (inr (JSONResponse (ValidationErrorResponse errors) HTTP_400_BAD_REQUEST),
        mkWorld store noon [])
     ∧ "password" ∈ errors)
  ∧ (∃ errors,
       run (update_passenger no_constraints any_columns str_type str_type str_type int_type jwt
              ana_claims 1 (delete "password" new_ana)) store noon
       = (inr (JSONResponse (ValidationErrorResponse errors) HTTP_400_BAD_REQUEST),
          mkWorld store noon [])
       ∧ "password" ∈ errors).
Proof.
  split.
  - apply (missing_field_rejected no_constraints any_columns append_row str_type str_type str_type
             int_type jwt (Post (delete "password" new_ana)) "password" store noon);
      [unfold schema_fields; by repeat constructor | reflexivity].
  - apply (missing_field_rejected no_constraints any_columns append_row str_type str_type str_type
             int_type jwt (Put ana_claims 1 (delete "password" new_ana)) "password"
             store noon);
      [unfold schema_fields; by repeat constructor | reflexivity].
Defined.

(** X9: Ana updates her row while the token codec is broken. *)
Lemma put_server_error_after_write_witness :
  ∃ body,
    validate str_type str_type str_type int_type new_ana = inr body
    ∧ broken_jwt (model_dump body) = None
    ∧ owner_resolved store ana_claims 1
    ∧ PassengersRepository.update_statement 1 new_ana noon store
      = PassengersRepository.update_statement 1 (model_dump body) noon store
    ∧ JSONResponse (BadResponse "Possible error generating token")
                   HTTP_500_INTERNAL_SERVER_ERROR
      = JSONResponse (BadResponse "Possible error generating token")
                     HTTP_500_INTERNAL_SERVER_ERROR.
Proof.
  apply (put_server_error_after_write no_constraints any_columns str_type str_type str_type int_type
           broken_jwt ana_claims 1 new_ana store noon _
           (mkWorld (PassengersRepository.update_statement 1 new_ana noon store) noon
                    [CallGetByEmail (VStr "ana@example.com"); CallUpdate 1 new_ana]));
    reflexivity.
Defined.

(** X10: Ana reads her own row. *)
Lemma details_success_is_own_row_witness :
  ∃ e p,
    ana_claims !! "email" = Some e
    ∧ PassengersRepository.first_by_email e (passengers store) = Some p
    ∧ p ∈ passengers store ∧ p !! "email" = Some e ∧ p !! "id" = Some (VInt 1)
    ∧ JSONResponse (SuccessResponse (DataRow ana)) HTTP_200_OK
      = JSONResponse (SuccessResponse (DataRow p)) HTTP_200_OK
    ∧ mkWorld store noon [CallGetByEmail (VStr "ana@example.com")]
      = mkWorld store noon [CallGetByEmail e].
Proof.
  apply (details_success_is_own_row ana_claims 1 store noon); reflexivity.
Defined.

(** X12: Ana lists her reservations. *)
Lemma reading_handlers_do_not_write_witness :
  db (run (protected no_constraints any_columns str_type str_type str_type int_type jwt
             Reservations ana_claims 1) store noon).2 = store
  ∧ Forall (λ c, is_mutation c = false)
           (calls (run (protected no_constraints any_columns str_type str_type str_type int_type jwt
                          Reservations ana_claims 1) store noon).2).
Proof.
  apply (reading_handlers_do_not_write no_constraints any_columns str_type str_type str_type
           int_type jwt Reservations ana_claims 1 store noon).
  reflexivity.
Defined.

(** An age that the schema accepts and the column refuses: the
    [DataError] of the write is caught by neither handler, and the
    tables stay as they were. *)
Example post_age_out_of_range :
  run (create_passenger checked_insert str_type str_type str_type int_type jwt
         (<["age" := VInt 2147483648]> new_ana)) store noon
  = (inl DataError,
     mkWorld store noon [CallCreate (<["age" := VInt 2147483648]> new_ana)]).
Proof. reflexivity. Qed.

Example put_age_out_of_range :
  run (update_passenger no_constraints int_columns str_type str_type str_type int_type jwt
         ana_claims 1 (<["age" := VInt 2147483648]> new_ana)) store noon
  = (inl DataError,
     mkWorld store noon
       [CallGetByEmail (VStr "ana@example.com");
        CallUpdate 1 (<["age" := VInt 2147483648]> new_ana)]).
Proof. reflexivity. Qed.

(** X15: a [PUT] whose body also carries an [id] and an [updated_at]. *)
Lemma writes_carry_schema_fields_only_witness :
  (∃ body,
     validate str_type str_type str_type int_type
       (request_of
          (Put ana_claims 1 (<["id" := VInt 2]> (<["updated_at" := VStr "1999"]> new_ana))))
     = inr body
     ∧ new_ana = model_dump body)
  ∧ (∀ k, is_Some (new_ana !! k) ↔ k ∈ schema_fields)
  ∧ new_ana !! "id" = None.
Proof.
  apply (writes_carry_schema_fields_only no_constraints any_columns append_row str_type str_type
           str_type int_type jwt
           (Put ana_claims 1 (<["id" := VInt 2]> (<["updated_at" := VStr "1999"]> new_ana)))
           store noon (CallUpdate 1 new_ana) new_ana).
  - right. left.
  - right. by exists 1.
Defined.

(** X16: Ana deletes her row; Ben then renames himself and Ana asks for
    her row again: id 1 is still missing and her token still does not
    reach it. *)
Lemma deleted_id_unreachable_witness :
  absent 1 (mkStore [ben] (reservations store))
  ∧ absent 1
      (serve no_constraints any_columns append_row str_type str_type str_type int_type jwt
         bearer
         [(ben_header, PUT_passenger 2 new_ana, later); (ana_header, GET_passenger 1, later)]
         (mkStore [ben] (reservations store)))
  ∧ db (run (protected no_constraints any_columns str_type str_type str_type int_type jwt
               Details ana_claims 1)
            (serve no_constraints any_columns append_row str_type str_type str_type int_type
               jwt bearer
               [(ben_header, PUT_passenger 2 new_ana, later);
                (ana_header, GET_passenger 1, later)]
               (mkStore [ben] (reservations store)))
            later).2
    = serve no_constraints any_columns append_row str_type str_type str_type int_type jwt
        bearer
        [(ben_header, PUT_passenger 2 new_ana, later); (ana_header, GET_passenger 1, later)]
        (mkStore [ben] (reservations store)).
Proof.
  destruct (deleted_id_unreachable no_constraints any_columns append_row str_type str_type
              str_type int_type jwt bearer
              ana_claims 1 store noon (EmptyResponse HTTP_204_NO_CONTENT)
              (mkWorld (mkStore [ben] (reservations store)) noon
                       [CallGetByEmail (VStr "ana@example.com"); CallDelete 1])
              eq_refl eq_refl) as [Hgone Hlater].
  split; [exact Hgone|].
  destruct (Hlater [(ben_header, PUT_passenger 2 new_ana, later);
                    (ana_header, GET_passenger 1, later)]) as [Habsent Hop].
  { repeat constructor. }
  split; [exact Habsent|].
  exact (proj1 (proj2 (Hop Details ana_claims later))).
Defined.

(** X17: Ana changes her email and reads her row back with the claims
    of the new token. *)
Lemma updated_row_read_back_witness :
  ∃ row,
    run (get_passenger_details
           (model_dump (mkPassengerRequest "Ana" 32 "ana@example.org" "New3241x")) 1)
        (PassengersRepository.update_statement 1 new_ana noon store) later
    = (inr (JSONResponse (SuccessResponse (DataRow row)) HTTP_200_OK),
       mkWorld (PassengersRepository.update_statement 1 new_ana noon store) later
               [CallGetByEmail (VStr "ana@example.org")])
    ∧ row !! "id" = Some (VInt 1)
    ∧ row !! "updated_at" = Some (VStr noon)
    ∧ ∀ k v, new_ana !! k = Some v → row !! k = Some v.
Proof.
  apply (updated_row_read_back no_constraints any_columns str_type str_type str_type int_type jwt
           ana_claims 1 new_ana store noon later
           (JSONResponse
              (SuccessResponse (DataUpdated (Auth.encode config 1000 new_ana) new_ana))
              HTTP_201_CREATED)
           (mkWorld (PassengersRepository.update_statement 1 new_ana noon store) noon
                    [CallGetByEmail (VStr "ana@example.com"); CallUpdate 1 new_ana])
           (mkPassengerRequest "Ana" 32 "ana@example.org" "New3241x"));
    [reflexivity | reflexivity | reflexivity |].
  intros row Hrow Hid.
  apply elem_of_cons in Hrow as [->|Hrow]; [by destruct Hid|].
  apply list_elem_of_singleton in Hrow as ->. discriminate.
Defined.

(** X18: after that change, the old token resolves to no row. *)
Lemma stale_token_after_email_change_witness :
  run (get_passenger_details ana_claims 1)
      (PassengersRepository.update_statement 1 new_ana noon store) later
  = (inr not_found,
     mkWorld (PassengersRepository.update_statement 1 new_ana noon store) later
             [CallGetByEmail (VStr "ana@example.com")]).
Proof.
  apply (stale_token_after_email_change no_constraints any_columns str_type str_type str_type
           int_type jwt ana_claims 1 1 new_ana store noon later
           (JSONResponse
              (SuccessResponse (DataUpdated (Auth.encode config 1000 new_ana) new_ana))
              HTTP_201_CREATED)
           (mkWorld (PassengersRepository.update_statement 1 new_ana noon store) noon
                    [CallGetByEmail (VStr "ana@example.com"); CallUpdate 1 new_ana])
           (mkPassengerRequest "Ana" 32 "ana@example.org" "New3241x")
           (VStr "ana@example.com"));
    [reflexivity | reflexivity | reflexivity | reflexivity | discriminate |].
  intros row Hrow Hmail.
  apply elem_of_cons in Hrow as [->|Hrow]; [reflexivity|].
  apply list_elem_of_singleton in Hrow as ->. discriminate.
Defined.

(** X19: with Ana's token, [DELETE /passengers/1] removes her row and
    leaves Ben's. *)
Lemma route_changes_only_own_row_witness :
  db (run (route no_constraints any_columns append_row str_type str_type str_type int_type
             jwt bearer ana_header (DELETE_passenger 1)) store noon).2 = store
  ∨ ∃ claims id,
      bearer ana_header = inr claims
      ∧ path_id (DELETE_passenger 1) = Some id
      ∧ owner_resolved store claims id
      ∧ PassengersRepository.others id
          (passengers (db (run (route no_constraints any_columns append_row str_type str_type
                                  str_type int_type jwt bearer ana_header (DELETE_passenger 1))
                               store noon).2))
        = PassengersRepository.others id (passengers store)
      ∧ reservations (db (run (route no_constraints any_columns append_row str_type str_type
                                 str_type int_type jwt bearer ana_header (DELETE_passenger 1))
                              store noon).2)
        = reservations store.
Proof.
  apply (route_changes_only_own_row no_constraints any_columns append_row str_type str_type str_type
           int_type jwt bearer ana_header (DELETE_passenger 1) store noon).
  reflexivity.
Defined.

(** ** Creating a passenger and reading it back *)

Section CreateFacts.

Variable model_create : Store → Dict → Exn + (Store * Value).
Variables AlphaStr EmailStr PasswordStr : Value → option string.
Variable int_field : Value → option Z.
Variable jwt_encode : Dict → option Token.

(** In a table that is one row more than another in which no row has an
    email, the lookup by that email finds the new row when it has it. *)
Lemma first_by_email_inserted (e : Value) (rows rows' : list Dict) (new_row : Dict) :
  rows' ≡ₚ new_row :: rows →
  new_row !! "email" = Some e →
  Forall (λ row, row !! "email" ≠ Some e) rows →
  PassengersRepository.first_by_email e rows' = Some new_row.
Proof.
  intros Hperm Hmail Hfree.
  assert (Hin : new_row ∈ rows') by (rewrite Hperm; left).
  apply list_elem_of_split in Hin as (before & after & ->).
  apply first_by_email_split. exists before, after. split_and!; [done|done|].
  symmetry in Hperm. apply Permutation_cons_app_inv in Hperm.
  rewrite Forall_forall in *. intros row Hrow. apply Hfree.
  rewrite Hperm. apply elem_of_app. by left.
Qed.

(** X20: a passenger that [POST /passengers/] has created can be read
    back with the claims of the token it was given.  Provided the insert
    adds one row to the table, whatever columns the table gives it
    besides, that this row carries the body's email and the returned
    integer id, and that no row had the email before,
    [GET /passengers/{id}] with those claims and that id answers 200
    with that row. *)
Theorem created_row_read_back (request : Dict) (s s' : Store) (now later : string)
    (r : Response) (w' : World) (body : PassengerRequestSchema) (new_id : Z)
    (new_row : Dict) :
  run (create_passenger model_create AlphaStr EmailStr PasswordStr int_field jwt_encode
         request) s now = (inr r, w') →
  status_of r = HTTP_201_CREATED →
  validate AlphaStr EmailStr PasswordStr int_field request = inr body →
  model_create s (model_dump body) = inr (s', VInt new_id) →
  passengers s' ≡ₚ new_row :: passengers s →
  new_row !! "id" = Some (VInt new_id) →
  new_row !! "email" = Some (VStr (email body)) →
  Forall (λ row, row !! "email" ≠ Some (VStr (email body))) (passengers s) →
  ∃ token,
    jwt_encode (model_dump body) = Some token
    ∧ r = JSONResponse
            (SuccessResponse (DataCreated (VInt new_id) (model_dump body) token))
            HTTP_201_CREATED
    ∧ db w' = s'
    ∧ run (get_passenger_details (model_dump body) new_id) (db w') later =
        (inr (JSONResponse (SuccessResponse (DataRow new_row)) HTTP_200_OK),
         mkWorld (db w') later [CallGetByEmail (VStr (email body))]).
Proof.
  intros Hrun Hstatus Hvalid Hcreate Hperm Hid Hmail Hfree.
  unfold run, create_passenger in Hrun. rewrite Hvalid in Hrun.
  unfold PassengersRepository.create in Hrun. eff_unfold. cbn [db clock calls] in Hrun.
  rewrite Hcreate in Hrun. eff_unfold. cbn [db clock calls] in Hrun.
  destruct (jwt_encode (model_dump body)) as [token|]; [|by simplify_eq].
  injection Hrun as <- <-. exists token. split_and!; [done|done|done|]. cbn [db].
  change (get_passenger_details (model_dump body) new_id)
    with (guarded (model_dump body) new_id
            (λ passenger,
               mret (JSONResponse (SuccessResponse (DataRow (default ∅ passenger)))
                                  HTTP_200_OK))).
  rewrite guarded_run. unfold guard_outcome. cbn [db clock calls passengers].
  change (model_dump body !! "email") with (Some (VStr (email body))). cbn match.
  rewrite (first_by_email_inserted _ _ _ _ Hperm Hmail Hfree), Hid.
  by rewrite bool_decide_eq_true_2.
Qed.

End CreateFacts.

(** X20: a new passenger on the sample table, stored with an empty
    [updated_at] besides, and read back at once. *)
Lemma created_row_read_back_witness :
  ∃ token,
    jwt (model_dump (mkPassengerRequest "Ana" 32 "ana@example.org" "New3241x")) = Some token
    ∧ JSONResponse
        (SuccessResponse (DataCreated (VInt 3) new_ana (Auth.encode config 1000 new_ana)))
        HTTP_201_CREATED
      = JSONResponse
          (SuccessResponse
             (DataCreated (VInt 3)
                (model_dump (mkPassengerRequest "Ana" 32 "ana@example.org" "New3241x"))
                token))
          HTTP_201_CREATED
    ∧ mkStore [ana; ben; <["id" := VInt 3]> (<["updated_at" := VNull]> new_ana)]
              (reservations store)
      = mkStore [ana; ben; <["id" := VInt 3]> (<["updated_at" := VNull]> new_ana)]
                (reservations store)
    ∧ run (get_passenger_details
             (model_dump (mkPassengerRequest "Ana" 32 "ana@example.org" "New3241x")) 3)
          (mkStore [ana; ben; <["id" := VInt 3]> (<["updated_at" := VNull]> new_ana)]
                   (reservations store))
          later
      = (inr (JSONResponse
                (SuccessResponse
                   (DataRow (<["id" := VInt 3]> (<["updated_at" := VNull]> new_ana))))
                HTTP_200_OK),
         mkWorld (mkStore [ana; ben; <["id" := VInt 3]> (<["updated_at" := VNull]> new_ana)]
                          (reservations store))
                 later [CallGetByEmail (VStr "ana@example.org")]).
Proof.
  apply (created_row_read_back insert_row str_type str_type str_type int_type jwt
           new_ana store
           (mkStore [ana; ben; <["id" := VInt 3]> (<["updated_at" := VNull]> new_ana)]
                    (reservations store))
           noon later _
           (mkWorld (mkStore [ana; ben; <["id" := VInt 3]> (<["updated_at" := VNull]> new_ana)]
                             (reservations store))
                    noon [CallCreate new_ana])
           (mkPassengerRequest "Ana" 32 "ana@example.org" "New3241x") 3
           (<["id" := VInt 3]> (<["updated_at" := VNull]> new_ana)));
    [reflexivity | reflexivity | reflexivity | reflexivity | | reflexivity | reflexivity |].
  - symmetry. apply (Permutation_cons_append [ana; ben]).
  - repeat constructor; discriminate.
Defined.
